(** * Dashboard de Chamados: the filtering, metrics and export pipeline

    A shallow embedding of [dados.py].  The script is a linear Streamlit
    page: it loads [chamados.csv] into a pandas DataFrame, reads three
    sidebar widgets, filters the frame, computes four KPIs and four chart
    tables, offers the filtered frame as a CSV download and shows it in a
    detail table.

    Conventions of the embedding:
    - a pandas [str] is a [string] holding its UTF-8 bytes; the order that
      Python puts on strings (by code point) is the bytewise order
      [String.compare];
    - a [datetime64[ns]] value is the number of nanoseconds since
      1970-01-01T00:00 as a [Z]; a [datetime.date] (what [st.date_input]
      returns) is the number of days since 1970-01-01 as a [Z];
    - [float64] results ([mean]) are the exact rationals they round;
    - every cell of the five schema columns is present (no NaN), as in the
      table the script generates;
    - a Python exception is the [Erro] case of [Resultado]. *)

From Stdlib Require Import ZArith List String Ascii Bool Lia.
From Stdlib Require Import QArith Qround Permutation Sorted.
From Stdlib Require Import DecimalString DecimalZ DecimalPos.
From Stdlib Require Import OrderedTypeEx FinFun.
Import ListNotations.

Local Open Scope string_scope.
Local Open Scope list_scope.
Local Open Scope Z_scope.

(** ** Exceptions *)

Inductive Excecao := IndexError | KeyError | ParserError | ValueError.

Inductive Resultado (A : Type) : Type :=
| Ok (a : A)
| Erro (e : Excecao).
Arguments Ok {A} a.
Arguments Erro {A} e.

Definition bind {A B} (m : Resultado A) (k : A -> Resultado B) : Resultado B :=
  match m with
  | Ok a => k a
  | Erro e => Erro e
  end.

Notation "x <- m ;; k" := (bind m (fun x => k))
  (at level 61, m at next level, right associativity).

(** [xs[i]] on a Python tuple or list. *)
Definition item {A} (xs : list A) (i : nat) : Resultado A :=
  match nth_error xs i with
  | Some x => Ok x
  | None => Erro IndexError
  end.

(** ** Time *)

Definition Timestamp := Z.
Definition date := Z.

Definition NS_POR_DIA : Z := 86400000000000.

(** [pd.to_datetime(d)] for a [datetime.date]: midnight of that day. *)
Definition to_datetime (d : date) : Timestamp := d * NS_POR_DIA.

(** [ts.date()]: the calendar day a timestamp falls on. *)
Definition date_of (t : Timestamp) : date := t / NS_POR_DIA.

(** Proleptic Gregorian calendar, days counted from 1970-01-01. *)
Definition days_from_civil (y m d : Z) : date :=
  let y' := if m <=? 2 then y - 1 else y in
  let era := y' / 400 in
  let yoe := y' - era * 400 in
  let mp := if 2 <? m then m - 3 else m + 9 in
  let doy := (153 * mp + 2) / 5 + d - 1 in
  let doe := yoe * 365 + yoe / 4 - yoe / 100 + doy in
  era * 146097 + doe - 719468.

Definition civil_from_days (n : date) : Z * Z * Z :=
  let z := n + 719468 in
  let era := z / 146097 in
  let doe := z - era * 146097 in
  let yoe := (doe - doe / 1460 + doe / 36524 - doe / 146096) / 365 in
  let doy := doe - (365 * yoe + yoe / 4 - yoe / 100) in
  let mp := (5 * doy + 2) / 153 in
  let d := doy - (153 * mp + 2) / 5 + 1 in
  let m := if mp <? 10 then mp + 3 else mp - 9 in
  let y := yoe + era * 400 in
  ((if m <=? 2 then y + 1 else y), m, d).

(** A timestamp written by its calendar fields. *)
Definition carimbo (y m d hh mm ss : Z) : Timestamp :=
  to_datetime (days_from_civil y m d) + ((hh * 60 + mm) * 60 + ss) * 1000000000.

(** Decimal digits, zero padded to a fixed width. *)
Definition digito (n : Z) : ascii := ascii_of_nat (48 + Z.to_nat (n mod 10)).

Fixpoint zfill (w : nat) (n : Z) (acc : string) : string :=
  match w with
  | O => acc
  | S w' => zfill w' (n / 10) (String (digito n) acc)
  end.

(** [ts.to_period("M")] rendered by [astype(str)]: ["YYYY-MM"]. *)
Definition to_period_M (t : Timestamp) : string :=
  let '(y, m, _) := civil_from_days (date_of t) in
  zfill 4 y (String "-" (zfill 2 m "")).

(** ** Ticket table *)

Record Chamado := mkChamado {
  ID : Z;
  setor : string;
  data : Timestamp;
  status : string;
  tempo_resolucao : Z
}.

(** The script only ever holds frames of two shapes: the five schema
    columns, or those five followed by the column ["mes"] that the monthly
    chart adds. *)
Inductive DataFrame :=
| Tabela (linhas : list Chamado)
| TabelaMes (linhas : list (Chamado * string)).

Definition esquema : list string :=
  ["ID"; "setor"; "data"; "status"; "tempo_resolucao"].

Definition columns (df : DataFrame) : list string :=
  match df with
  | Tabela _ => esquema
  | TabelaMes _ => esquema ++ ["mes"]
  end.

(** The rows of a frame, restricted to the schema columns. *)
Definition registros (df : DataFrame) : list Chamado :=
  match df with
  | Tabela l => l
  | TabelaMes l => map fst l
  end.

(** [df[mask]]: boolean indexing keeps the rows where the mask holds, in
    order, in a new frame. *)
Definition seleciona (mask : Chamado -> bool) (df : DataFrame) : DataFrame :=
  match df with
  | Tabela l => Tabela (filter mask l)
  | TabelaMes l => TabelaMes (filter (fun p => mask (fst p)) l)
  end.

(** [df.empty] *)
Definition empty (df : DataFrame) : bool :=
  match registros df with
  | [] => true
  | _ :: _ => false
  end.

(** [df.shape[0]] *)
Definition shape0 (df : DataFrame) : nat := List.length (registros df).

(** ** Column helpers *)

(** [Series.isin(values)] on one cell. *)
Definition isin (x : string) (values : list string) : bool :=
  existsb (String.eqb x) values.

(** Insertion of a string in a list sorted by [String.leb]. *)
Fixpoint insere (x : string) (l : list string) : list string :=
  match l with
  | [] => [x]
  | y :: l' => if String.leb x y then x :: l else y :: insere x l'
  end.

(** [sorted(xs)] on strings. *)
Fixpoint sorted (l : list string) : list string :=
  match l with
  | [] => []
  | x :: l' => insere x (sorted l')
  end.

(** [Series.unique()]: distinct values in order of first appearance. *)
Fixpoint unique (l : list string) : list string :=
  match l with
  | [] => []
  | x :: l' => x :: filter (fun y => negb (String.eqb x y)) (unique l')
  end.

(** Number of cells of a string column equal to [x]. *)
Definition conta (x : string) (col : list string) : nat :=
  List.length (filter (String.eqb x) col).

(** [Series.min()] and [Series.max()] of the timestamp column; [None] is NaT,
    the result on an empty column. *)
Definition col_min (col : list Timestamp) : option Timestamp :=
  match col with
  | [] => None
  | t :: ts => Some (fold_left Z.min ts t)
  end.

Definition col_max (col : list Timestamp) : option Timestamp :=
  match col with
  | [] => None
  | t :: ts => Some (fold_left Z.max ts t)
  end.

(** ** Sidebar and filter (lines 40-67) *)

Record Selecao := mkSelecao {
  datas_selecionadas : list date;
  setores_sel : list string;
  status_sel : list string
}.

Definition data_min (df : DataFrame) : option Timestamp :=
  col_min (map data (registros df)).

Definition data_max (df : DataFrame) : option Timestamp :=
  col_max (map data (registros df)).

Definition setores (df : DataFrame) : list string :=
  sorted (unique (map setor (registros df))).

Definition status_disponiveis (df : DataFrame) : list string :=
  sorted (unique (map status (registros df))).

(** What the three widgets return before the user touches them.
    [st.date_input] takes its default [value=[data_min, data_max]] and
    returns [datetime.date] objects, so the two timestamps lose their time
    of day.  On an empty table both are NaT and the widget has no default. *)
Definition selecao_padrao (df : DataFrame) : option Selecao :=
  match data_min df, data_max df with
  | Some lo, Some hi =>
      Some (mkSelecao [date_of lo; date_of hi] (setores df) (status_disponiveis df))
  | _, _ => None
  end.

(** The row mask of lines 63-66. *)
Definition mascara (sel_setor sel_status : list string) (ini fim : date)
  (r : Chamado) : bool :=
  isin (setor r) sel_setor
  && isin (status r) sel_status
  && (to_datetime ini <=? data r)
  && (data r <=? to_datetime fim).

(** Lines 62-67.  [datas_selecionadas[0]] and [[1]] raise IndexError while
    the user has picked fewer than two dates. *)
Definition df_filtrado (df : DataFrame) (sel : Selecao) : Resultado DataFrame :=
  ini <- item (datas_selecionadas sel) 0 ;;
  fim <- item (datas_selecionadas sel) 1 ;;
  Ok (seleciona (mascara (setores_sel sel) (status_sel sel) ini fim) df).

(** ** KPIs (lines 73-82) *)

(** A [float64] result: NaN or the exact rational it stands for. *)
Inductive float := NaN | Num (q : Q).

(** [Series.mean()]: NaN on an empty column. *)
Definition mean (col : list Z) : float :=
  match col with
  | [] => NaN
  | _ :: _ => Num (Qred (Qmake (fold_right Z.add 0 col) (Pos.of_nat (List.length col))))
  end.

Definition fmul (x : float) (k : Q) : float :=
  match x with
  | NaN => NaN
  | Num q => Num (Qred (q * k))
  end.

(** [Series.eq(value)] on one cell, as the 0/1 that [mean] averages. *)
Definition eq_cell (value x : string) : Z := if String.eqb x value then 1 else 0.

(** [Series.mode()]: the values of maximal frequency, in sorted order. *)
Definition freq_max (col : list string) : nat :=
  fold_right Nat.max O (map (fun x => conta x col) col).

Definition mode (col : list string) : list string :=
  sorted (filter (fun x => Nat.eqb (conta x col) (freq_max col)) (unique col)).

(** [s[0]] on a Series indexed from 0: KeyError when it has no row. *)
Definition primeiro {A} (s : list A) : Resultado A :=
  match s with
  | x :: _ => Ok x
  | [] => Erro KeyError
  end.

Record KPIs := mkKPIs {
  tempo_medio : float;
  taxa_resolucao : float;
  total_chamados : nat;
  setor_top : string
}.

Definition kpis (filtrado : DataFrame) : Resultado KPIs :=
  if negb (empty filtrado) then
    let rs := registros filtrado in
    let tempo_medio := mean (map tempo_resolucao rs) in
    let taxa_resolucao := fmul (mean (map (eq_cell "Resolvido") (map status rs))) 100 in
    let total_chamados := shape0 filtrado in
    setor_top <- primeiro (mode (map setor rs)) ;;
    Ok (mkKPIs tempo_medio taxa_resolucao total_chamados setor_top)
  else
    Ok (mkKPIs (Num 0) (Num 0) O "-").

(** ** Chart tables (lines 92-168) *)

(** [groupby(key)["ID"].count().reset_index()]: one row per distinct key,
    keys ascending, with the number of rows of the group (every ID cell is
    present, so [count] counts them all). *)
Definition groupby_count (keys : list string) : list (string * nat) :=
  map (fun k => (k, conta k keys)) (sorted (unique keys)).

(** [value_counts().reset_index()]: one row per distinct value, most
    frequent first.  Values are met in order of first appearance and the
    sort is taken stable; no statement below depends on how ties fall. *)
Fixpoint insere_desc (p : string * nat) (l : list (string * nat)) : list (string * nat) :=
  match l with
  | [] => [p]
  | q :: l' => if Nat.leb (snd q) (snd p) then p :: l else q :: insere_desc p l'
  end.

Definition value_counts (col : list string) : list (string * nat) :=
  fold_right insere_desc [] (map (fun k => (k, conta k col)) (unique col)).

(** Line 155, [df_filtrado["mes"] = ...]: sets the column ["mes"] on the
    frame that [df_filtrado] names, adding it when it is not there. *)
Definition atribui_mes (df : DataFrame) : DataFrame :=
  TabelaMes (map (fun r => (r, to_period_M (data r))) (registros df)).

Definition coluna_mes (df : DataFrame) : Resultado (list string) :=
  match df with
  | Tabela _ => Erro KeyError
  | TabelaMes l => Ok (map snd l)
  end.

(** ** CSV export: [DataFrame.to_csv(index=False)] (line 176) *)

Definition LF : ascii := "010"%char.
Definition CR : ascii := "013"%char.
Definition VIRGULA : ascii := ","%char.
Definition ASPAS : ascii := ascii_of_nat 34.

(** [str(n)] for an integer cell. *)
Definition str_int (n : Z) : string := NilZero.string_of_int (Z.to_int n).

(** The finest unit a [datetime64] column needs; pandas prints the whole
    column at that resolution. *)
Inductive Resolucao := RESO_DAY | RESO_SEC | RESO_MS | RESO_US | RESO_NS.

Definition resolucao_de (t : Timestamp) : Resolucao :=
  if t mod NS_POR_DIA =? 0 then RESO_DAY
  else if t mod 1000000000 =? 0 then RESO_SEC
  else if t mod 1000000 =? 0 then RESO_MS
  else if t mod 1000 =? 0 then RESO_US
  else RESO_NS.

Definition reso_rank (r : Resolucao) : nat :=
  match r with
  | RESO_DAY => 0 | RESO_SEC => 1 | RESO_MS => 2 | RESO_US => 3 | RESO_NS => 4
  end%nat.

Definition reso_fina (a b : Resolucao) : Resolucao :=
  if Nat.leb (reso_rank a) (reso_rank b) then b else a.

Definition get_resolution (col : list Timestamp) : Resolucao :=
  fold_right (fun t r => reso_fina (resolucao_de t) r) RESO_DAY col.

(** One timestamp cell at the column's resolution: ["YYYY-MM-DD"], or
    ["YYYY-MM-DD HH:MM:SS"] followed by 3, 6 or 9 fractional digits.  The
    year takes four digits on every value [datetime64[ns]] can hold. *)
Definition str_data (reso : Resolucao) (t : Timestamp) : string :=
  let '(y, m, d) := civil_from_days (date_of t) in
  let ns := t mod NS_POR_DIA in
  let seg := ns / 1000000000 in
  let frac := ns mod 1000000000 in
  let dia := zfill 4 y (String "-" (zfill 2 m (String "-" (zfill 2 d "")))) in
  let hora := zfill 2 (seg / 3600) (String ":" (zfill 2 (seg / 60 mod 60)
                (String ":" (zfill 2 (seg mod 60) "")))) in
  match reso with
  | RESO_DAY => dia
  | RESO_SEC => (dia ++ " " ++ hora)%string
  | RESO_MS => (dia ++ " " ++ hora ++ "." ++ zfill 3 (frac / 1000000) "")%string
  | RESO_US => (dia ++ " " ++ hora ++ "." ++ zfill 6 (frac / 1000) "")%string
  | RESO_NS => (dia ++ " " ++ hora ++ "." ++ zfill 9 frac "")%string
  end.

(** The csv writer with [QUOTE_MINIMAL]: a field is quoted when it holds
    the delimiter, the quote character or a line break, and quotes inside it
    are doubled. *)
Definition especial (c : ascii) : bool :=
  Ascii.eqb c VIRGULA || Ascii.eqb c ASPAS || Ascii.eqb c LF || Ascii.eqb c CR.

Fixpoint tem_especial (s : string) : bool :=
  match s with
  | EmptyString => false
  | String c s' => especial c || tem_especial s'
  end.

Fixpoint dobra_aspas (s : string) : string :=
  match s with
  | EmptyString => EmptyString
  | String c s' =>
      if Ascii.eqb c ASPAS then String ASPAS (String ASPAS (dobra_aspas s'))
      else String c (dobra_aspas s')
  end.

Definition campo_csv (s : string) : string :=
  if tem_especial s
  then String ASPAS (dobra_aspas s ++ String ASPAS EmptyString)%string
  else s.

Fixpoint junta (campos : list string) : string :=
  match campos with
  | [] => EmptyString
  | [c] => c
  | c :: cs => (c ++ String VIRGULA (junta cs))%string
  end.

Definition linha_csv (campos : list string) : string :=
  (junta (map campo_csv campos) ++ String LF EmptyString)%string.

Definition celulas (reso : Resolucao) (r : Chamado) : list string :=
  [str_int (ID r); setor r; str_data reso (data r); status r;
   str_int (tempo_resolucao r)].

Definition to_csv (df : DataFrame) : string :=
  let reso := get_resolution (map data (registros df)) in
  let corpo :=
    match df with
    | Tabela l => map (celulas reso) l
    | TabelaMes l => map (fun p => celulas reso (fst p) ++ [snd p]) l
    end in
  (linha_csv (columns df) ++ String.concat "" (map linha_csv corpo))%string.

(** ** Dataset loader: [pd.read_csv] then [pd.to_datetime] (lines 30-31) *)

(** The tokenizer of the C parser, on the default dialect: comma
    delimiter, double-quote quoting with doubled quotes, LF, CR or CRLF
    line ends, blank lines skipped.  After a CR the parser eats one LF and
    is otherwise at the start of a record; as blank lines are skipped, that
    is what the start of a record does too. *)
Inductive Estado :=
| START_RECORD | START_FIELD | IN_FIELD
| IN_QUOTED_FIELD | QUOTE_IN_QUOTED_FIELD | EAT_CRNL.

Definition fecha_campo (campo : list ascii) (linha : list string) : list string :=
  string_of_list_ascii (rev campo) :: linha.

Fixpoint tokenize (s : string) (st : Estado) (campo : list ascii)
  (linha : list string) (feitas : list (list string)) : list (list string) :=
  match s with
  | EmptyString =>
      match st with
      | START_RECORD | EAT_CRNL => rev feitas
      | _ => rev (rev (fecha_campo campo linha) :: feitas)
      end
  | String c s' =>
      let fim_linha := rev (fecha_campo campo linha) :: feitas in
      match st with
      | START_RECORD | EAT_CRNL =>
          if Ascii.eqb c LF then tokenize s' START_RECORD [] [] feitas
          else if Ascii.eqb c CR then tokenize s' EAT_CRNL [] [] feitas
          else if Ascii.eqb c ASPAS then tokenize s' IN_QUOTED_FIELD [] [] feitas
          else if Ascii.eqb c VIRGULA then tokenize s' START_FIELD [] (fecha_campo [] []) feitas
          else tokenize s' IN_FIELD [c] [] feitas
      | START_FIELD =>
          if Ascii.eqb c LF then tokenize s' START_RECORD [] [] fim_linha
          else if Ascii.eqb c CR then tokenize s' EAT_CRNL [] [] fim_linha
          else if Ascii.eqb c ASPAS then tokenize s' IN_QUOTED_FIELD [] linha feitas
          else if Ascii.eqb c VIRGULA then tokenize s' START_FIELD [] (fecha_campo [] linha) feitas
          else tokenize s' IN_FIELD [c] linha feitas
      | IN_FIELD =>
          if Ascii.eqb c LF then tokenize s' START_RECORD [] [] fim_linha
          else if Ascii.eqb c CR then tokenize s' EAT_CRNL [] [] fim_linha
          else if Ascii.eqb c VIRGULA then tokenize s' START_FIELD [] (fecha_campo campo linha) feitas
          else tokenize s' IN_FIELD (c :: campo) linha feitas
      | IN_QUOTED_FIELD =>
          if Ascii.eqb c ASPAS then tokenize s' QUOTE_IN_QUOTED_FIELD campo linha feitas
          else tokenize s' IN_QUOTED_FIELD (c :: campo) linha feitas
      | QUOTE_IN_QUOTED_FIELD =>
          if Ascii.eqb c ASPAS then tokenize s' IN_QUOTED_FIELD (c :: campo) linha feitas
          else if Ascii.eqb c VIRGULA then tokenize s' START_FIELD [] (fecha_campo campo linha) feitas
          else if Ascii.eqb c LF then tokenize s' START_RECORD [] [] fim_linha
          else if Ascii.eqb c CR then tokenize s' EAT_CRNL [] [] fim_linha
          else tokenize s' IN_FIELD (c :: campo) linha feitas
      end
  end.

(** Cell readers.  An integer column is read with [int]; a text column
    keeps its text unless the cell is one of the markers pandas reads as a
    missing value. *)
Definition le_int (s : string) : Resultado Z :=
  match NilZero.int_of_string s with
  | Some n => Ok (Z.of_int n)
  | None => Erro ValueError
  end.

Definition na_values : list string :=
  [""; "#N/A"; "#N/A N/A"; "#NA"; "-1.#IND"; "-1.#QNAN"; "-NaN"; "-nan";
   "1.#IND"; "1.#QNAN"; "<NA>"; "N/A"; "NA"; "NULL"; "NaN"; "None"; "n/a";
   "nan"; "null"].

Definition le_texto (s : string) : Resultado string :=
  if isin s na_values then Erro ValueError else Ok s.

Fixpoint le_digitos (s : string) (acc : Z) : option Z :=
  match s with
  | EmptyString => Some acc
  | String c s' =>
      let n := Z.of_nat (nat_of_ascii c) in
      if (48 <=? n) && (n <=? 57) then le_digitos s' (acc * 10 + (n - 48)) else None
  end.

Definition le_numero (s : string) : option Z :=
  match s with
  | EmptyString => None
  | _ => le_digitos s 0
  end.

(** Fractional seconds, 1 to 9 digits, as nanoseconds. *)
Definition le_fracao (s : string) : option Z :=
  let n := String.length s in
  if Nat.leb 1 n && Nat.leb n 9
  then option_map (fun v => v * 10 ^ Z.of_nat (9 - n)) (le_numero s)
  else None.

Definition le_hora (s : string) : option Z :=
  match le_numero (substring 0 2 s), le_numero (substring 3 2 s),
        le_numero (substring 6 2 s) with
  | Some hh, Some mm, Some ss =>
      if String.eqb (substring 2 1 s) ":" && String.eqb (substring 5 1 s) ":"
         && (hh <? 24) && (mm <? 60) && (ss <? 60)
      then
        let base := ((hh * 60 + mm) * 60 + ss) * 1000000000 in
        if Nat.eqb (String.length s) 8 then Some base
        else if String.eqb (substring 8 1 s) "."
        then option_map (Z.add base) (le_fracao (substring 9 (String.length s - 9) s))
        else None
      else None
  | _, _, _ => None
  end.

(** [pd.to_datetime] on one text cell, for the two layouts [to_csv]
    writes. *)
Definition le_data (s : string) : Resultado Timestamp :=
  match le_numero (substring 0 4 s), le_numero (substring 5 2 s),
        le_numero (substring 8 2 s) with
  | Some y, Some m, Some d =>
      let dia := days_from_civil y m d in
      if String.eqb (substring 4 1 s) "-" && String.eqb (substring 7 1 s) "-"
         && (let '(y', m', d') := civil_from_days dia in
             (y' =? y) && (m' =? m) && (d' =? d))
      then
        if Nat.eqb (String.length s) 10 then Ok (to_datetime dia)
        else if String.eqb (substring 10 1 s) " "
        then match le_hora (substring 11 (String.length s - 11) s) with
             | Some ns => Ok (to_datetime dia + ns)
             | None => Erro ValueError
             end
        else Erro ValueError
      else Erro ValueError
  | _, _, _ => Erro ValueError
  end.

Definition le_chamado (campos : list string) : Resultado (Chamado * list string) :=
  match campos with
  | c_id :: c_setor :: c_data :: c_status :: c_tempo :: resto =>
      id <- le_int c_id ;;
      st <- le_texto c_setor ;;
      dt <- le_data c_data ;;
      stt <- le_texto c_status ;;
      tr <- le_int c_tempo ;;
      Ok (mkChamado id st dt stt tr, resto)
  | _ => Erro ParserError
  end.

Fixpoint sequencia {A} (ms : list (Resultado A)) : Resultado (list A) :=
  match ms with
  | [] => Ok []
  | m :: ms' => x <- m ;; xs <- sequencia ms' ;; Ok (x :: xs)
  end.

Definition list_string_eqb (a b : list string) : bool :=
  if list_eq_dec string_dec a b then true else false.

(** Lines 30-31.  The header decides the shape of the frame; a file whose
    header is neither the schema nor the schema followed by ["mes"], or
    whose cells do not read at the schema's types, yields no frame of this
    model and is reported as an error. *)
Definition carregar (texto : string) : Resultado DataFrame :=
  match tokenize texto START_RECORD [] [] [] with
  | [] => Erro ParserError
  | cabecalho :: corpo =>
      if list_string_eqb cabecalho esquema then
        ls <- sequencia (map (fun campos =>
                p <- le_chamado campos ;;
                match snd p with
                | [] => Ok (fst p)
                | _ => Erro ParserError
                end) corpo) ;;
        Ok (Tabela ls)
      else if list_string_eqb cabecalho (esquema ++ ["mes"]) then
        ls <- sequencia (map (fun campos =>
                p <- le_chamado campos ;;
                match snd p with
                | [m] => m' <- le_texto m ;; Ok (fst p, m')
                | _ => Erro ParserError
                end) corpo) ;;
        Ok (TabelaMes ls)
      else Erro ParserError
  end.

(** ** One rendering pass (lines 61-186)

    [df_filtrado] is one Python name bound to one frame for the whole pass:
    line 155 assigns the column ["mes"] on that frame, so what lines 176
    and 186 read is the frame as line 155 left it.  The frame is threaded
    through the pass as [f0] (after line 67) and [f1] (after line 155). *)

Record Pagina := mkPagina {
  metricas : KPIs;
  chamados_por_setor : option (list (string * nat));
  status_count : option (list (string * nat));
  graf3 : option (list (string * Z));
  chamados_por_mes : option (list (string * nat));
  download : option string;
  detalhados : DataFrame
}.

Definition pagina (df : DataFrame) (sel : Selecao) : Resultado Pagina :=
  f0 <- df_filtrado df sel ;;
  m <- kpis f0 ;;
  let g1 := if negb (empty f0)
            then Some (groupby_count (map setor (registros f0))) else None in
  let g2 := if negb (empty f0)
            then Some (value_counts (map status (registros f0))) else None in
  let g3 := if negb (empty f0)
            then Some (map (fun r => (setor r, tempo_resolucao r)) (registros f0))
            else None in
  r4 <- (if negb (empty f0) then
           let f1 := atribui_mes f0 in
           col <- coluna_mes f1 ;;
           Ok (f1, Some (groupby_count col))
         else Ok (f0, None)) ;;
  let f1 := fst r4 in
  let csv := if negb (empty f1) then Some (to_csv f1) else None in
  Ok (mkPagina m g1 g2 g3 (snd r4) csv f1).

(** ** Sample tables *)

(** The three-ticket table of the worked scenario, over the labels used
    for a resolved and for an open ticket. *)
Definition tabela_exemplo (resolvido aberto : string) : DataFrame :=
  Tabela [ mkChamado 1 "TI" (carimbo 2024 1 5 0 0 0) resolvido 10;
           mkChamado 2 "TI" (carimbo 2024 2 10 0 0 0) aberto 5;
           mkChamado 3 "RH" (carimbo 2024 1 20 0 0 0) resolvido 20 ].

Definition selecao_exemplo (df : DataFrame) : Selecao :=
  mkSelecao [days_from_civil 2024 1 1; days_from_civil 2024 12 31]
            ["TI"] (status_disponiveis df).

(** Two sectors with one ticket each, "TI" first. *)
Definition dois_setores : DataFrame :=
  Tabela [ mkChamado 1 "TI" (carimbo 2024 1 5 0 0 0) "Aberto" 10;
           mkChamado 2 "RH" (carimbo 2024 1 6 0 0 0) "Aberto" 5 ].

(** A ticket opened at noon. *)
Definition chamado_meio_dia : Chamado :=
  mkChamado 1 "TI" (carimbo 2024 1 5 12 0 0) "Aberto" 10.

(** The three tickets of the worked scenario, stamped with a time of day
    as the generator of lines 18-24 stamps them. *)
Definition tabela_com_horas : DataFrame :=
  Tabela [ mkChamado 1 "TI" (carimbo 2024 1 5 9 30 0) "Resolvido" 10;
           mkChamado 2 "TI" (carimbo 2024 2 10 14 0 0) "Aberto" 5;
           mkChamado 3 "RH" (carimbo 2024 1 20 16 45 0) "Resolvido" 20 ].

(** What the scenario reports for a table, at a given resolution rate:
    sector "TI" selected, every status of the table, the whole of 2024. *)
Definition cenario_confere (df : DataFrame) (taxa : Q) : Prop :=
  exists f p,
    df_filtrado df (selecao_exemplo df) = Ok f
    /\ map ID (registros f) = [1; 2]
    /\ pagina df (selecao_exemplo df) = Ok p
    /\ tempo_medio (metricas p) = Num (15 # 2)
    /\ taxa_resolucao (metricas p) = Num taxa
    /\ total_chamados (metricas p) = 2%nat
    /\ setor_top (metricas p) = "TI"
    /\ chamados_por_mes p = Some [("2024-01", 1%nat); ("2024-02", 1%nat)].

(** ** Notions used to state the properties *)

(** The values a [datetime64[ns]] cell can hold (the least 64-bit integer
    is NaT). *)
Definition em_datetime64 (t : Timestamp) : Prop := - 2 ^ 63 < t < 2 ^ 63.

(** A text cell that [read_csv] does not take for a missing value. *)
Definition texto_presente (s : string) : Prop := isin s na_values = false.

(** A ticket whose cells survive the trip through a CSV file. *)
Definition chamado_exportavel (r : Chamado) : Prop :=
  texto_presente (setor r) /\ texto_presente (status r) /\ em_datetime64 (data r).

Definition exportavel (df : DataFrame) : Prop :=
  match df with
  | Tabela l => Forall chamado_exportavel l
  | TabelaMes l =>
      Forall (fun p => chamado_exportavel (fst p) /\ texto_presente (snd p)) l
  end.

(** A record of at least two fields. *)
Definition dois_campos (l : list string) : Prop :=
  exists f g fs, l = f :: g :: fs.

(** A list of strings in ascending order. *)
Definition ordenada : list string -> Prop :=
  StronglySorted (fun a b => String.leb a b = true).

(** The KPIs of the [else] branch of line 82. *)
Definition kpis_neutros : KPIs := mkKPIs (Num 0) (Num 0) O "-".



(** Stated from the specification: among the sectors of maximal frequency,
    the one met first in row order. *)
Definition moda_primeira_ocorrencia (col : list string) : option string :=
  find (fun x => Nat.eqb (conta x col) (freq_max col)) col.

(** ** Start of the script (lines 10-31)

    When [chamados.csv] is missing the script draws a table of 100
    tickets, writes it, and then loads the file like any other.  What
    [random], [numpy.random] and the clock hand out is an input of the
    model: [sorteio i] is what the five draws of row [i] returned. *)

Definition setores_ficticios : list string :=
  ["Financeiro"; "TI"; "RH"; "Comercial"; "Logística"].

Definition status_ficticios : list string :=
  ["Aberto"; "Em andamento"; "Resolvido"].

Record Sorteio := mkSorteio {
  s_setor : string;      (* random.choice(setores) *)
  s_hoje : Timestamp;    (* datetime.today() *)
  s_dias : Z;            (* random.randint(0, 365) *)
  s_status : string;     (* random.choice(status) *)
  s_tempo : Z            (* a cell of np.random.randint(1, 72, size=100) *)
}.

(** Row [i] of lines 18-24; [range(1, 101)] numbers the rows from 1. *)
Definition linha_ficticia (sorteio : nat -> Sorteio) (i : nat) : Chamado :=
  let s := sorteio i in
  mkChamado (Z.of_nat (S i)) (s_setor s) (s_hoje s - s_dias s * NS_POR_DIA)
            (s_status s) (s_tempo s).

Definition gerar (sorteio : nat -> Sorteio) : DataFrame :=
  Tabela (map (linha_ficticia sorteio) (seq 0 100)).

(** Lines 11-31: [arquivo] is the text of [chamados.csv], [None] when there
    is no such file.  The result is the text of the file afterwards and
    the table loaded from it. *)
Definition inicio (arquivo : option string) (sorteio : nat -> Sorteio)
  : string * Resultado DataFrame :=
  let texto := match arquivo with
               | Some t => t
               | None => to_csv (gerar sorteio)
               end in
  (texto, carregar texto).

(** What the libraries promise of the draws: [choice] returns an element of
    its list, [randint(0, 365)] includes both ends, numpy's [randint(1, 72)]
    excludes 72, and the clock and the day a year before it are dates that
    a [datetime64[ns]] cell can hold. *)
Definition sorteio_valido (s : Sorteio) : Prop :=
  In (s_setor s) setores_ficticios
  /\ In (s_status s) status_ficticios
  /\ 0 <= s_dias s <= 365
  /\ 1 <= s_tempo s < 72
  /\ - 2 ^ 63 < s_hoje s < 2 ^ 63
  /\ - 2 ^ 63 < s_hoje s - 365 * NS_POR_DIA < 2 ^ 63.

(** ** More sample inputs *)

Definition tabela_pt : DataFrame := tabela_exemplo "Resolvido" "Aberto".

Definition selecao_pt : Selecao := selecao_exemplo tabela_pt.

Definition subconjunto_pt : DataFrame := Tabela (firstn 2 (registros tabela_pt)).

(** The page rendered for [tabela_pt] under [selecao_pt]. *)
Definition pagina_pt : Pagina :=
  Eval vm_compute in
    match pagina tabela_pt selecao_pt with
    | Ok p => p
    | Erro _ => mkPagina (mkKPIs (Num 0) (Num 0) O "-") None None None None None (Tabela [])
    end.


(** No sector selected. *)
Definition selecao_sem_setor : Selecao :=
  mkSelecao [days_from_civil 2024 1 1; days_from_civil 2024 12 31]
            [] ["Aberto"; "Resolvido"].

Definition sorteio_exemplo (i : nat) : Sorteio :=
  mkSorteio "TI" (carimbo 2024 6 1 12 0 0) (Z.of_nat i) "Resolvido"
            (1 + Z.of_nat i mod 71).

(** ** More notions used to state the properties *)

(** Year and month of a timestamp. *)
Definition ano_mes (t : Timestamp) : Z * Z :=
  let '(y, m, _) := civil_from_days (date_of t) in (y, m).

(** The months elapsed up to a day, twelve to the year. *)
Definition mes_corrido (n : date) : Z :=
  let '(y, m, _) := civil_from_days n in 12 * y + m.

(** [subsequencia l l']: [l] is [l'] with some elements left out, the
    others in their order. *)
Inductive subsequencia {A : Type} : list A -> list A -> Prop :=
| sub_nil : subsequencia [] []
| sub_fica (x : A) (l l' : list A) : subsequencia l l' -> subsequencia (x :: l) (x :: l')
| sub_sai (x : A) (l l' : list A) : subsequencia l l' -> subsequencia l (x :: l').



(** * Properties *)

(** ** The calendar *)

(** The year of a day within its 400-year era, and the day within that
    year. *)
Lemma ano_da_era (doe : Z) :
  0 <= doe <= 146096 ->
  let yoe := (doe - doe / 1460 + doe / 36524 - doe / 146096) / 365 in
  0 <= yoe <= 399 /\ 0 <= doe - (365 * yoe + yoe / 4 - yoe / 100) <= 365.
Proof.
  intros H yoe. subst yoe. Z.div_mod_to_equations. lia.
Qed.

(** Every day has one calendar date, and [days_from_civil] takes that date
    back to the day. *)
Lemma calendario_inverso (n : date) :
  exists y m d,
    civil_from_days n = (y, m, d) /\ days_from_civil y m d = n
    /\ 1 <= m <= 12 /\ 1 <= d <= 31
    /\ 400 * ((n + 719468) / 146097) <= y <= 400 * ((n + 719468) / 146097) + 400.
Proof.
  unfold civil_from_days.
  set (z := n + 719468).
  set (era := z / 146097).
  set (doe := z - era * 146097).
  assert (Hdoe : 0 <= doe <= 146096)
    by (subst doe era; Z.div_mod_to_equations; lia).
  destruct (ano_da_era doe Hdoe) as [Hyoe Hdoy].
  set (yoe := (doe - doe / 1460 + doe / 36524 - doe / 146096) / 365) in *.
  set (doy := doe - (365 * yoe + yoe / 4 - yoe / 100)) in *.
  set (mp := (5 * doy + 2) / 153).
  assert (Hmp : 0 <= mp <= 11) by (subst mp; Z.div_mod_to_equations; lia).
  set (d := doy - (153 * mp + 2) / 5 + 1).
  assert (Hd : 1 <= d <= 31) by (subst d mp; Z.div_mod_to_equations; lia).
  assert (Eera : forall k, k = yoe + era * 400 -> k / 400 = era)
    by (intros k ->; Z.div_mod_to_equations; lia).
  do 3 eexists. split; [reflexivity|].
  unfold days_from_civil.
  destruct (mp <? 10) eqn:E; [apply Z.ltb_lt in E | apply Z.ltb_ge in E].
  - replace (mp + 3 <=? 2) with false by (symmetry; apply Z.leb_gt; lia).
    replace (2 <? mp + 3) with true by (symmetry; apply Z.ltb_lt; lia).
    rewrite (Eera _ eq_refl).
    replace (mp + 3 - 3) with mp by lia.
    replace (yoe + era * 400 - era * 400) with yoe by lia.
    repeat split; try lia; subst d doy doe z; lia.
  - replace (mp - 9 <=? 2) with true by (symmetry; apply Z.leb_le; lia).
    replace (2 <? mp - 9) with false by (symmetry; apply Z.ltb_ge; lia).
    replace (yoe + era * 400 + 1 - 1) with (yoe + era * 400) by lia.
    rewrite (Eera _ eq_refl).
    replace (mp - 9 + 9) with mp by lia.
    replace (yoe + era * 400 - era * 400) with yoe by lia.
    repeat split; try lia; subst d doy doe z; lia.
Qed.

Example epoca : days_from_civil 1970 1 1 = 0 /\ civil_from_days 0 = (1970, 1, 1).
Proof. split; reflexivity. Qed.

Example dia_bissexto :
  civil_from_days (days_from_civil 2024 2 28 + 1) = (2024, 2, 29)
  /\ civil_from_days (days_from_civil 2023 2 28 + 1) = (2023, 3, 1).
Proof. split; reflexivity. Qed.

Example mes_de_um_carimbo :
  to_period_M (carimbo 2024 2 10 14 0 0) = "2024-02"
  /\ to_period_M (carimbo 1969 12 31 23 59 59) = "1969-12".
Proof. split; reflexivity. Qed.

(** ** Lists of strings *)

Lemma isin_In (x : string) (l : list string) : isin x l = true <-> In x l.
Proof.
  unfold isin. rewrite existsb_exists. split.
  - intros [y [Hy He]]. apply String.eqb_eq in He. now subst.
  - intros H. exists x. split; [assumption | apply String.eqb_refl].
Qed.

Lemma filter_idem {A} (f : A -> bool) (l : list A) :
  filter f (filter f l) = filter f l.
Proof.
  induction l as [|a l IH]; simpl; [reflexivity|].
  destruct (f a) eqn:E; simpl; rewrite ?E, IH; reflexivity.
Qed.

Lemma filter_tudo {A} (f : A -> bool) (l : list A) :
  (forall x, In x l -> f x = true) -> filter f l = l.
Proof.
  induction l as [|a l IH]; simpl; intros H; [reflexivity|].
  rewrite (H a (or_introl eq_refl)), IH; auto.
Qed.

Lemma filter_map_fst {A B} (f : A -> bool) (l : list (A * B)) :
  map fst (filter (fun p => f (fst p)) l) = filter f (map fst l).
Proof.
  induction l as [|a l IH]; simpl; [reflexivity|].
  destruct (f (fst a)); simpl; now rewrite IH.
Qed.

Lemma insere_perm (x : string) (l : list string) :
  Permutation (insere x l) (x :: l).
Proof.
  induction l as [|y l IH]; simpl; [reflexivity|].
  destruct (String.leb x y); [reflexivity|].
  rewrite IH. apply perm_swap.
Qed.

Lemma sorted_perm (l : list string) : Permutation (sorted l) l.
Proof.
  induction l as [|x l IH]; simpl; [reflexivity|].
  rewrite insere_perm. now constructor.
Qed.

Lemma In_sorted (x : string) (l : list string) : In x (sorted l) <-> In x l.
Proof.
  split; apply Permutation_in; [| symmetry]; apply sorted_perm.
Qed.

Lemma leb_refl (a : string) : String.leb a a = true.
Proof. destruct (String.leb_total a a); assumption. Qed.

Lemma leb_trans (a b c : string) :
  String.leb a b = true -> String.leb b c = true -> String.leb a c = true.
Proof.
  unfold String.leb.
  destruct (String.compare a b) eqn:Eab; try discriminate;
    destruct (String.compare b c) eqn:Ebc; try discriminate; intros _ _.
  - apply String_as_OT.cmp_eq in Eab, Ebc. subst.
    pose proof (proj2 (String_as_OT.cmp_eq c c) eq_refl) as H.
    unfold String_as_OT.cmp in H. now rewrite H.
  - apply String_as_OT.cmp_eq in Eab. subst. now rewrite Ebc.
  - apply String_as_OT.cmp_eq in Ebc. subst. now rewrite Eab.
  - apply String_as_OT.cmp_lt in Eab, Ebc.
    pose proof (String_as_OT.lt_trans _ _ _ Eab Ebc) as H.
    apply String_as_OT.cmp_lt in H. unfold String_as_OT.cmp in H. now rewrite H.
Qed.

Lemma insere_ordenada (x : string) (l : list string) :
  ordenada l -> ordenada (insere x l).
Proof.
  unfold ordenada. induction 1 as [|y l Hs IH Hall]; simpl.
  - repeat constructor.
  - destruct (String.leb x y) eqn:E.
    + constructor; [now constructor|].
      constructor; [assumption|].
      eapply Forall_impl; [|exact Hall]. intros z Hz. eapply leb_trans; eassumption.
    + constructor; [assumption|].
      assert (Hyx : String.leb y x = true)
        by (destruct (String.leb_total x y); congruence).
      rewrite Forall_forall in *. intros z Hz.
      apply (Permutation_in _ (insere_perm x l)) in Hz.
      destruct Hz as [<-|Hz]; auto.
Qed.

Lemma sorted_ordenada (l : list string) : ordenada (sorted l).
Proof.
  induction l as [|x l IH]; simpl; [constructor | now apply insere_ordenada].
Qed.

Lemma In_unique (x : string) (l : list string) : In x (unique l) <-> In x l.
Proof.
  induction l as [|a l IH]; simpl; [tauto|].
  rewrite filter_In, IH. destruct (String.eqb_spec a x) as [->|Hne]; simpl.
  - split; auto.
  - split; [intros [?|[? _]]; auto | intros [?|?]; [now left | now right]].
Qed.

Lemma NoDup_unique (l : list string) : NoDup (unique l).
Proof.
  induction l as [|a l IH]; simpl; constructor.
  - rewrite filter_In. intros [_ H]. now rewrite String.eqb_refl in H.
  - now apply NoDup_filter.
Qed.

(** ** Counting *)

Lemma conta_cons (k x : string) (l : list string) :
  conta k (x :: l) = ((if String.eqb k x then 1 else 0) + conta k l)%nat.
Proof. unfold conta. simpl. now destruct (String.eqb k x). Qed.

Lemma conta_pos_In (k : string) (l : list string) :
  (0 < conta k l)%nat -> In k l.
Proof.
  induction l as [|x l IH]; [unfold conta; simpl; lia|].
  rewrite conta_cons. destruct (String.eqb_spec k x) as [->|Hne]; simpl.
  - now left.
  - intros H. right. now apply IH.
Qed.

Lemma In_conta_pos (k : string) (l : list string) :
  In k l -> (0 < conta k l)%nat.
Proof.
  induction l as [|x l IH]; simpl; [tauto|].
  rewrite conta_cons. intros [->|H].
  - rewrite String.eqb_refl. lia.
  - specialize (IH H). lia.
Qed.


Lemma list_sum_map_add {A} (f g : A -> nat) (u : list A) :
  list_sum (map (fun k => (f k + g k)%nat) u)
  = (list_sum (map f u) + list_sum (map g u))%nat.
Proof. induction u as [|a u IH]; simpl; lia. Qed.

Lemma list_sum_indicador (x : string) (u : list string) :
  NoDup u -> In x u ->
  list_sum (map (fun k => if String.eqb k x then 1 else 0)%nat u) = 1%nat.
Proof.
  induction 1 as [|a u Hnin Hnd IH]; simpl; [tauto|].
  intros [->|Hin].
  - rewrite String.eqb_refl.
    assert (E : list_sum (map (fun k => if String.eqb k x then 1 else 0)%nat u) = 0%nat).
    { clear IH Hnd. induction u as [|b u IHu]; simpl; [reflexivity|].
      destruct (String.eqb_spec b x) as [->|Hne].
      - exfalso. apply Hnin. now left.
      - apply IHu. intros H. apply Hnin. now right. }
    lia.
  - destruct (String.eqb_spec a x) as [->|Hne]; [contradiction|].
    now rewrite IH.
Qed.

(** Counting every key of a duplicate-free cover counts every cell once. *)
Lemma soma_das_contagens (u l : list string) :
  NoDup u -> (forall x, In x l -> In x u) ->
  list_sum (map (fun k => conta k l) u) = List.length l.
Proof.
  intros Hnd. induction l as [|x l IH]; intros Hcov.
  - unfold conta. simpl. clear Hnd Hcov. induction u; simpl; auto.
  - rewrite (map_ext _ _ (fun k => conta_cons k x l)).
    rewrite list_sum_map_add, list_sum_indicador, IH; simpl; auto.
    + intros y Hy. apply Hcov. now right.
    + apply Hcov. now left.
Qed.

Lemma list_sum_perm (a b : list nat) : Permutation a b -> list_sum a = list_sum b.
Proof. induction 1; simpl; lia. Qed.

Lemma insere_desc_perm (p : string * nat) (l : list (string * nat)) :
  Permutation (insere_desc p l) (p :: l).
Proof.
  induction l as [|q l IH]; simpl; [reflexivity|].
  destruct (Nat.leb (snd q) (snd p)); [reflexivity|].
  rewrite IH. apply perm_swap.
Qed.

Lemma ordena_desc_perm (l : list (string * nat)) :
  Permutation (fold_right insere_desc [] l) l.
Proof.
  induction l as [|p l IH]; simpl; [reflexivity|].
  rewrite insere_desc_perm. now constructor.
Qed.

Lemma groupby_count_soma (keys : list string) :
  list_sum (map snd (groupby_count keys)) = List.length keys.
Proof.
  unfold groupby_count. rewrite map_map. simpl.
  rewrite (list_sum_perm _ (map (fun k => conta k keys) (unique keys))).
  - apply soma_das_contagens; [apply NoDup_unique | intros x; apply In_unique].
  - apply Permutation_map, sorted_perm.
Qed.

Lemma value_counts_soma (col : list string) :
  list_sum (map snd (value_counts col)) = List.length col.
Proof.
  unfold value_counts.
  rewrite (list_sum_perm _ (map snd (map (fun k => (k, conta k col)) (unique col)))).
  - rewrite map_map. simpl.
    apply soma_das_contagens; [apply NoDup_unique | intros x; apply In_unique].
  - apply Permutation_map, ordena_desc_perm.
Qed.

(** ** The mode *)

Lemma max_lista_ge (l : list nat) (n : nat) :
  In n l -> (n <= fold_right Nat.max O l)%nat.
Proof.
  induction l as [|a l IH]; simpl; [tauto|].
  intros [->|H]; [lia | specialize (IH H); lia].
Qed.

Lemma max_lista_In (l : list nat) :
  l <> [] -> In (fold_right Nat.max O l) l.
Proof.
  induction l as [|a l IH]; [congruence|]. intros _. simpl.
  destruct l as [|b l].
  - left. simpl. lia.
  - destruct (Nat.max_spec a (fold_right Nat.max O (b :: l))) as [[_ E]|[_ E]];
      rewrite E; [right; apply IH; discriminate | now left].
Qed.

Lemma conta_le_freq_max (x : string) (col : list string) :
  (conta x col <= freq_max col)%nat.
Proof.
  destruct (Nat.eq_dec (conta x col) 0) as [E|E]; [lia|].
  unfold freq_max. apply max_lista_ge.
  apply (in_map (fun y => conta y col)). apply conta_pos_In. lia.
Qed.

Lemma freq_max_atingida (col : list string) :
  col <> [] -> exists x, In x col /\ conta x col = freq_max col.
Proof.
  intros Hne. unfold freq_max.
  assert (H : map (fun x => conta x col) col <> [])
    by (destruct col; [congruence | discriminate]).
  apply max_lista_In in H. apply in_map_iff in H.
  destruct H as [x [E Hin]]. exists x. split; assumption.
Qed.

Lemma In_mode (s : string) (col : list string) :
  In s (mode col) <-> In s col /\ conta s col = freq_max col.
Proof.
  unfold mode. rewrite In_sorted, filter_In, In_unique, Nat.eqb_eq. tauto.
Qed.

Lemma primeiro_mode (col : list string) :
  col <> [] ->
  exists s, primeiro (mode col) = Ok s
    /\ In s col
    /\ conta s col = freq_max col
    /\ forall t, In t col -> conta t col = freq_max col -> String.leb s t = true.
Proof.
  intros Hne.
  destruct (freq_max_atingida col Hne) as [x [Hx Ex]].
  assert (Hm : In x (mode col)) by (apply In_mode; auto).
  pose proof (sorted_ordenada
    (filter (fun x => Nat.eqb (conta x col) (freq_max col)) (unique col))) as Hs.
  fold (mode col) in Hs.
  destruct (mode col) as [|s rest] eqn:E; [destruct Hm|].
  exists s. simpl. split; [reflexivity|].
  assert (Hs' : In s (mode col)) by (rewrite E; now left).
  apply In_mode in Hs'. destruct Hs' as [Hin Hc].
  repeat split; auto.
  intros t Ht Hct.
  assert (Ht' : In t (s :: rest)) by (rewrite <- E; apply In_mode; auto).
  destruct Ht' as [<-|Ht']; [apply leb_refl|].
  inversion Hs as [|? ? _ Hall]; subst.
  rewrite Forall_forall in Hall. now apply Hall.
Qed.

(** ** The filter *)

Lemma registros_seleciona (m : Chamado -> bool) (df : DataFrame) :
  registros (seleciona m df) = filter m (registros df).
Proof. destruct df; simpl; [reflexivity | apply filter_map_fst]. Qed.

Lemma columns_seleciona (m : Chamado -> bool) (df : DataFrame) :
  columns (seleciona m df) = columns df.
Proof. now destruct df. Qed.

Lemma seleciona_idem (m : Chamado -> bool) (df : DataFrame) :
  seleciona m (seleciona m df) = seleciona m df.
Proof. destruct df; simpl; now rewrite filter_idem. Qed.

Lemma seleciona_tudo (m : Chamado -> bool) (df : DataFrame) :
  (forall r, In r (registros df) -> m r = true) -> seleciona m df = df.
Proof.
  destruct df; simpl; intros H; f_equal; apply filter_tudo; auto.
  intros p Hp. apply H. now apply in_map.
Qed.

Lemma mascara_true (ss sts : list string) (ini fim : date) (r : Chamado) :
  mascara ss sts ini fim r = true <->
  In (setor r) ss /\ In (status r) sts
  /\ to_datetime ini <= data r <= to_datetime fim.
Proof.
  unfold mascara. rewrite !andb_true_iff, !isin_In, !Z.leb_le. tauto.
Qed.

Lemma df_filtrado_inv (df : DataFrame) (sel : Selecao) (f : DataFrame) :
  df_filtrado df sel = Ok f ->
  exists ini fim resto,
    datas_selecionadas sel = ini :: fim :: resto
    /\ f = seleciona (mascara (setores_sel sel) (status_sel sel) ini fim) df.
Proof.
  unfold df_filtrado, item.
  destruct (datas_selecionadas sel) as [|ini [|fim resto]]; simpl; try discriminate.
  intros [= <-]. now exists ini, fim, resto.
Qed.

Lemma df_filtrado_duas_datas (df : DataFrame) (ini fim : date) (ss sts : list string) :
  df_filtrado df (mkSelecao [ini; fim] ss sts)
  = Ok (seleciona (mascara ss sts ini fim) df).
Proof. reflexivity. Qed.

(** What the filter keeps: the bounds are the midnights that open the two
    selected days. *)
Lemma filtro_caracterizado (df : DataFrame) (ini fim : date) (ss sts : list string)
  (f : DataFrame) :
  df_filtrado df (mkSelecao [ini; fim] ss sts) = Ok f ->
  forall r, In r (registros f) <->
    In r (registros df) /\ In (setor r) ss /\ In (status r) sts
    /\ to_datetime ini <= data r <= to_datetime fim.
Proof.
  rewrite df_filtrado_duas_datas. intros [= <-] r.
  rewrite registros_seleciona, filter_In, mascara_true. tauto.
Qed.

Lemma filtrado_subconjunto (df : DataFrame) (sel : Selecao) (f : DataFrame) :
  df_filtrado df sel = Ok f ->
  incl (registros f) (registros df) /\ incl (map ID (registros f)) (map ID (registros df)).
Proof.
  intros H. apply df_filtrado_inv in H. destruct H as (ini & fim & resto & _ & ->).
  rewrite registros_seleciona.
  assert (Hi : incl (filter (mascara (setores_sel sel) (status_sel sel) ini fim)
                            (registros df)) (registros df))
    by (intros r Hr; now apply filter_In in Hr).
  split; [exact Hi | now apply incl_map].
Qed.

(** The two bounds in calendar days: the start bound is the day bound; the
    end bound admits, on the last day, only the stroke of midnight. *)
Lemma limite_inicial (ini : date) (t : Timestamp) :
  to_datetime ini <= t <-> ini <= date_of t.
Proof.
  unfold to_datetime, date_of, NS_POR_DIA. split; intros H.
  - apply Z.div_le_lower_bound; lia.
  - pose proof (Z.mul_div_le t 86400000000000 ltac:(lia)). nia.
Qed.

Lemma limite_final (fim : date) (t : Timestamp) :
  t <= to_datetime fim <->
  date_of t < fim \/ (date_of t = fim /\ t mod NS_POR_DIA = 0).
Proof.
  unfold to_datetime, date_of, NS_POR_DIA.
  pose proof (Z.div_mod t 86400000000000 ltac:(lia)) as E.
  pose proof (Z.mod_pos_bound t 86400000000000 ltac:(lia)) as B.
  split; intros H; nia.
Qed.

Lemma limite_final_meia_noite (fim : date) (t : Timestamp) :
  t mod NS_POR_DIA = 0 -> (t <= to_datetime fim <-> date_of t <= fim).
Proof. intros H. rewrite limite_final. lia. Qed.

(** The filter in calendar days. *)
Lemma filtro_em_dias (df : DataFrame) (ini fim : date) (ss sts : list string)
  (f : DataFrame) :
  df_filtrado df (mkSelecao [ini; fim] ss sts) = Ok f ->
  forall r, In r (registros f) <->
    In r (registros df) /\ In (setor r) ss /\ In (status r) sts
    /\ ini <= date_of (data r)
    /\ (date_of (data r) < fim
        \/ (date_of (data r) = fim /\ data r mod NS_POR_DIA = 0)).
Proof.
  intros Hf r. rewrite (filtro_caracterizado df ini fim ss sts f Hf r).
  rewrite limite_inicial, limite_final. tauto.
Qed.

(** On a table whose tickets are all stamped at midnight the filter keeps
    exactly the tickets opened from the first to the last selected day. *)
Lemma filtro_com_precisao_de_dia (df : DataFrame) (ini fim : date)
  (ss sts : list string) (f : DataFrame) :
  (forall r, In r (registros df) -> data r mod NS_POR_DIA = 0) ->
  df_filtrado df (mkSelecao [ini; fim] ss sts) = Ok f ->
  forall r, In r (registros f) <->
    In r (registros df) /\ In (setor r) ss /\ In (status r) sts
    /\ ini <= date_of (data r) <= fim.
Proof.
  intros Hmid Hf r. rewrite (filtro_em_dias df ini fim ss sts f Hf r).
  split.
  - intros (Hr & Hs & Hst & Hi & Hfim). repeat split; auto. lia.
  - intros (Hr & Hs & Hst & Hi & Hfim). repeat split; auto.
    specialize (Hmid r Hr). lia.
Qed.

(** ** The default selection *)

Lemma fold_min_spec (ts : list Z) (t : Z) :
  fold_left Z.min ts t <= t /\ forall x, In x ts -> fold_left Z.min ts t <= x.
Proof.
  revert t. induction ts as [|a ts IH]; intros t; simpl; [split; [lia | tauto]|].
  destruct (IH (Z.min t a)) as [H1 H2]. split; [lia|].
  intros x [<-|Hx]; [lia | auto].
Qed.

Lemma fold_max_spec (ts : list Z) (t : Z) :
  t <= fold_left Z.max ts t /\ forall x, In x ts -> x <= fold_left Z.max ts t.
Proof.
  revert t. induction ts as [|a ts IH]; intros t; simpl; [split; [lia | tauto]|].
  destruct (IH (Z.max t a)) as [H1 H2]. split; [lia|].
  intros x [<-|Hx]; [lia | auto].
Qed.

Lemma fold_max_In (ts : list Z) (t : Z) : In (fold_left Z.max ts t) (t :: ts).
Proof.
  revert t. induction ts as [|a ts IH]; intros t; simpl; [now left|].
  destruct (IH (Z.max t a)) as [E|H]; [|now right; right].
  rewrite <- E. destruct (Z.max_spec t a) as [[_ ->]|[_ ->]]; auto.
Qed.

Lemma col_min_le (col : list Timestamp) (lo : Timestamp) :
  col_min col = Some lo -> forall x, In x col -> lo <= x.
Proof.
  destruct col as [|t ts]; simpl; [discriminate|]. intros [= <-] x [<-|Hx].
  - exact (proj1 (fold_min_spec ts t)).
  - exact (proj2 (fold_min_spec ts t) x Hx).
Qed.

Lemma col_max_ge (col : list Timestamp) (hi : Timestamp) :
  col_max col = Some hi -> forall x, In x col -> x <= hi.
Proof.
  destruct col as [|t ts]; simpl; [discriminate|]. intros [= <-] x [<-|Hx].
  - exact (proj1 (fold_max_spec ts t)).
  - exact (proj2 (fold_max_spec ts t) x Hx).
Qed.

Lemma col_max_In (col : list Timestamp) (hi : Timestamp) :
  col_max col = Some hi -> In hi col.
Proof.
  destruct col as [|t ts]; simpl; [discriminate|]. intros [= <-]. apply fold_max_In.
Qed.

Lemma selecao_padrao_some (df : DataFrame) (hi : Timestamp) :
  data_max df = Some hi ->
  exists lo, data_min df = Some lo
    /\ selecao_padrao df
       = Some (mkSelecao [date_of lo; date_of hi] (setores df) (status_disponiveis df)).
Proof.
  unfold selecao_padrao, data_max, data_min.
  destruct (map data (registros df)) as [|t ts] eqn:E; simpl; [discriminate|].
  intros [= <-]. eexists. split; reflexivity.
Qed.

Lemma filter_length_lt {A} (f : A -> bool) (l : list A) (x : A) :
  In x l -> f x = false -> (List.length (filter f l) < List.length l)%nat.
Proof.
  induction l as [|a l IH]; simpl; [tauto|]. intros [->|Hin] Hx.
  - rewrite Hx. pose proof (filter_length_le f l). lia.
  - specialize (IH Hin Hx). destruct (f a); simpl; lia.
Qed.

(** With the widgets untouched the page shows the whole table when the
    latest ticket is stamped at midnight ... *)
Lemma padrao_completo (df : DataFrame) (hi : Timestamp) :
  data_max df = Some hi -> hi mod NS_POR_DIA = 0 ->
  exists sel, selecao_padrao df = Some sel /\ df_filtrado df sel = Ok df.
Proof.
  intros Hmax Hmid.
  destruct (selecao_padrao_some df hi Hmax) as (lo & Hmin & Hsel).
  eexists. split; [exact Hsel|].
  rewrite df_filtrado_duas_datas. f_equal. apply seleciona_tudo.
  intros r Hr. apply mascara_true. repeat split.
  - unfold setores. apply In_sorted, In_unique. now apply in_map.
  - unfold status_disponiveis. apply In_sorted, In_unique. now apply in_map.
  - apply limite_inicial. unfold date_of, NS_POR_DIA.
    apply Z.div_le_mono; [lia|].
    apply (col_min_le _ _ Hmin). now apply in_map.
  - assert (Hle : data r <= hi) by (apply (col_max_ge _ _ Hmax); now apply in_map).
    assert (E : to_datetime (date_of hi) = hi).
    { unfold to_datetime, date_of in *.
      pose proof (Z.div_mod hi NS_POR_DIA ltac:(unfold NS_POR_DIA; lia)). lia. }
    now rewrite E.
Qed.

(** ... and loses tickets of the last day otherwise. *)
Lemma padrao_incompleto (df : DataFrame) (hi : Timestamp) :
  data_max df = Some hi -> hi mod NS_POR_DIA <> 0 ->
  exists sel f, selecao_padrao df = Some sel /\ df_filtrado df sel = Ok f
    /\ (shape0 f < shape0 df)%nat.
Proof.
  intros Hmax Hmid.
  destruct (selecao_padrao_some df hi Hmax) as (lo & Hmin & Hsel).
  do 2 eexists. split; [exact Hsel|]. split; [apply df_filtrado_duas_datas|].
  unfold shape0. rewrite registros_seleciona.
  pose proof (col_max_In _ _ Hmax) as Hin. apply in_map_iff in Hin.
  destruct Hin as (r & Er & Hr).
  apply (filter_length_lt _ _ r Hr).
  destruct (mascara _ _ _ _ r) eqn:Em; [|reflexivity].
  apply mascara_true in Em. destruct Em as (_ & _ & _ & Hfim).
  rewrite Er in Hfim. apply limite_final in Hfim. lia.
Qed.

(** ** The rendering pass, case by case *)

Lemma empty_true (df : DataFrame) : empty df = true <-> registros df = [].
Proof. unfold empty. destruct (registros df); split; congruence. Qed.

Lemma empty_false (df : DataFrame) : empty df = false <-> registros df <> [].
Proof. unfold empty. destruct (registros df); split; congruence. Qed.

Lemma coluna_nao_vazia {A} (g : Chamado -> A) (f : DataFrame) :
  empty f = false -> map g (registros f) <> [].
Proof.
  intros H. apply empty_false in H. destruct (registros f); [congruence | discriminate].
Qed.

Lemma shape0_positivo (f : DataFrame) : empty f = false -> (0 < shape0 f)%nat.
Proof.
  intros H. apply empty_false in H. unfold shape0.
  destruct (registros f); [congruence | simpl; lia].
Qed.

Lemma registros_atribui_mes (df : DataFrame) :
  registros (atribui_mes df) = registros df.
Proof.
  unfold atribui_mes. simpl. rewrite map_map. simpl. apply map_id.
Qed.

Lemma coluna_atribui_mes (df : DataFrame) :
  coluna_mes (atribui_mes df)
  = Ok (map (fun r => to_period_M (data r)) (registros df)).
Proof. unfold atribui_mes. simpl. now rewrite map_map. Qed.

Lemma empty_atribui_mes (df : DataFrame) : empty (atribui_mes df) = empty df.
Proof. unfold empty. now rewrite registros_atribui_mes. Qed.

Lemma kpis_vazio (f : DataFrame) : empty f = true -> kpis f = Ok kpis_neutros.
Proof. intros H. unfold kpis. now rewrite H. Qed.

Lemma kpis_nao_vazio (f : DataFrame) :
  empty f = false ->
  exists s,
    primeiro (mode (map setor (registros f))) = Ok s
    /\ kpis f = Ok (mkKPIs (mean (map tempo_resolucao (registros f)))
                           (fmul (mean (map (eq_cell "Resolvido")
                                            (map status (registros f)))) 100)
                           (shape0 f) s).
Proof.
  intros H. unfold kpis. rewrite H. simpl.
  destruct (primeiro_mode (map setor (registros f)) (coluna_nao_vazia setor f H))
    as (s & Hs & _).
  exists s. split; [assumption|]. now rewrite Hs.
Qed.

Lemma pagina_vazia (df : DataFrame) (sel : Selecao) (f : DataFrame) :
  df_filtrado df sel = Ok f -> empty f = true ->
  pagina df sel = Ok (mkPagina kpis_neutros None None None None None f).
Proof.
  intros Hf He. unfold pagina. rewrite Hf. simpl.
  rewrite (kpis_vazio f He). simpl. rewrite He. simpl. now rewrite He.
Qed.

Lemma pagina_nao_vazia (df : DataFrame) (sel : Selecao) (f : DataFrame) :
  df_filtrado df sel = Ok f -> empty f = false ->
  exists m, kpis f = Ok m
    /\ pagina df sel
       = Ok (mkPagina m
               (Some (groupby_count (map setor (registros f))))
               (Some (value_counts (map status (registros f))))
               (Some (map (fun r => (setor r, tempo_resolucao r)) (registros f)))
               (Some (groupby_count (map (fun r => to_period_M (data r)) (registros f))))
               (Some (to_csv (atribui_mes f)))
               (atribui_mes f)).
Proof.
  intros Hf He. destruct (kpis_nao_vazio f He) as (s & _ & Hk).
  eexists. split; [exact Hk|].
  unfold pagina. rewrite Hf. simpl. rewrite Hk. simpl. rewrite He. simpl.
  rewrite map_map. simpl. rewrite empty_atribui_mes, He. simpl.
  now rewrite map_map.
Qed.

Lemma pagina_total (df : DataFrame) (sel : Selecao) (p : Pagina) :
  pagina df sel = Ok p -> total_chamados (metricas p) = shape0 (detalhados p).
Proof.
  intros Hp.
  destruct (df_filtrado df sel) as [f|e] eqn:Hf;
    [|unfold pagina in Hp; rewrite Hf in Hp; discriminate].
  destruct (empty f) eqn:He.
  - rewrite (pagina_vazia df sel f Hf He) in Hp. injection Hp as <-. simpl.
    apply empty_true in He. unfold shape0. now rewrite He.
  - destruct (pagina_nao_vazia df sel f Hf He) as (m & Hk & Hp').
    rewrite Hp' in Hp. injection Hp as <-. simpl.
    destruct (kpis_nao_vazio f He) as (s & _ & Hk').
    rewrite Hk' in Hk. injection Hk as <-. simpl.
    unfold shape0. now rewrite registros_atribui_mes.
Qed.

(** ** The resolution rate *)








(** ** Export and reload, cell by cell *)

Lemma le_int_str_int (z : Z) : le_int (str_int z) = Ok z.
Proof.
  unfold le_int, str_int.
  rewrite NilZero.isi.
  - now rewrite DecimalZ.of_to.
  - destruct z; simpl; try discriminate.
    intros [= H]. revert H. apply Unsigned.to_uint_nonnil.
  - destruct z; simpl; try discriminate.
    intros [= H]. revert H. apply Unsigned.to_uint_nonnil.
Qed.

Lemma nat_of_digito (n : Z) :
  Z.of_nat (nat_of_ascii (digito n)) = 48 + n mod 10.
Proof.
  unfold digito.
  pose proof (Z.mod_pos_bound n 10 ltac:(lia)).
  rewrite nat_ascii_embedding; lia.
Qed.

Lemma le_digitos_digito (n : Z) (s : string) (acc : Z) :
  le_digitos (String (digito n) s) acc = le_digitos s (acc * 10 + n mod 10).
Proof.
  cbn [le_digitos]. rewrite nat_of_digito.
  pose proof (Z.mod_pos_bound n 10 ltac:(lia)).
  replace (48 <=? 48 + n mod 10) with true by (symmetry; apply Z.leb_le; lia).
  replace (48 + n mod 10 <=? 57) with true by (symmetry; apply Z.leb_le; lia).
  cbn [andb]. f_equal. lia.
Qed.

Lemma le_digitos_zfill (w : nat) :
  forall n acc a,
    le_digitos (zfill w n acc) a
    = le_digitos acc (a * 10 ^ Z.of_nat w + n mod 10 ^ Z.of_nat w).
Proof.
  induction w as [|w IH]; intros n acc a.
  - cbn [zfill]. change (10 ^ Z.of_nat 0) with 1. rewrite Z.mod_1_r. f_equal. lia.
  - cbn [zfill]. rewrite IH, le_digitos_digito. f_equal.
    rewrite Nat2Z.inj_succ, Z.pow_succ_r by lia.
    rewrite (Z.rem_mul_r n 10 (10 ^ Z.of_nat w)) by lia. lia.
Qed.

Lemma zfill_nao_vazio (w : nat) (n : Z) (acc : string) :
  zfill (S w) n acc <> EmptyString.
Proof.
  revert n acc. induction w as [|w IH]; intros n acc.
  - discriminate.
  - change (zfill (S (S w)) n acc) with (zfill (S w) (n / 10) (String (digito n) acc)).
    apply IH.
Qed.

Lemma le_numero_zfill (w : nat) (n : Z) :
  0 <= n < 10 ^ Z.of_nat (S w) -> le_numero (zfill (S w) n "") = Some n.
Proof.
  intros H. unfold le_numero.
  destruct (zfill (S w) n "") eqn:E; [now apply zfill_nao_vazio in E|].
  rewrite <- E, le_digitos_zfill. cbn [le_digitos].
  f_equal. rewrite Z.mod_small; lia.
Qed.

Lemma length_zfill (w : nat) : forall n acc,
  String.length (zfill w n acc) = (w + String.length acc)%nat.
Proof.
  induction w as [|w IH]; intros n acc; cbn [zfill]; [reflexivity|].
  rewrite IH. cbn [String.length]. lia.
Qed.

Lemma ano_quatro_digitos (t : Timestamp) (y m d : Z) :
  em_datetime64 t -> civil_from_days (date_of t) = (y, m, d) -> 1600 <= y <= 2400.
Proof.
  intros Ht Hc.
  destruct (calendario_inverso (date_of t)) as (y' & m' & d' & Hc' & _ & _ & _ & Hy).
  rewrite Hc in Hc'. injection Hc' as <- <- <-.
  unfold em_datetime64, date_of, NS_POR_DIA in *.
  change (2 ^ 63) with 9223372036854775808 in Ht.
  revert Hy. Z.div_mod_to_equations. lia.
Qed.

Lemma zfill_app (w : nat) : forall n a b,
  (zfill w n a ++ b)%string = zfill w n (a ++ b)%string.
Proof.
  induction w as [|w IH]; intros n a b; cbn [zfill]; [reflexivity|].
  now rewrite IH.
Qed.

Lemma substring_tudo (r : string) : substring 0 (String.length r) r = r.
Proof. induction r as [|c r IH]; cbn; [reflexivity | now rewrite IH]. Qed.

Lemma le_numero_2 (n : Z) :
  0 <= n < 100 -> le_numero (String (digito (n / 10)) (String (digito n) "")) = Some n.
Proof. intros H. apply (le_numero_zfill 1 n). change (10 ^ Z.of_nat 2) with 100. lia. Qed.

Lemma le_numero_4 (n : Z) :
  0 <= n < 10000 ->
  le_numero (String (digito (n / 10 / 10 / 10)) (String (digito (n / 10 / 10))
            (String (digito (n / 10)) (String (digito n) "")))) = Some n.
Proof. intros H. apply (le_numero_zfill 3 n). change (10 ^ Z.of_nat 4) with 10000. lia. Qed.

Lemma substring_0_0 (s : string) : substring 0 0 s = EmptyString.
Proof. now destruct s. Qed.

(** Reading a date cell: the ten characters of the day, then nothing or a
    space and the time of day. *)
Lemma le_data_prefixo (y m d : Z) (resto : string) :
  0 <= y < 10000 -> 0 <= m < 100 -> 0 <= d < 100 ->
  civil_from_days (days_from_civil y m d) = (y, m, d) ->
  le_data (zfill 4 y (String "-" (zfill 2 m (String "-" (zfill 2 d resto)))))
  = match resto with
    | EmptyString => Ok (to_datetime (days_from_civil y m d))
    | String c r =>
        if Ascii.eqb c " "
        then match le_hora r with
             | Some ns => Ok (to_datetime (days_from_civil y m d) + ns)
             | None => Erro ValueError
             end
        else Erro ValueError
    end.
Proof.
  intros Hy Hm Hd Hc.
  unfold le_data. cbn [zfill substring]. rewrite !substring_0_0.
  rewrite (le_numero_4 y Hy), (le_numero_2 m Hm), (le_numero_2 d Hd), Hc.
  rewrite !Z.eqb_refl. cbn [String.eqb Ascii.eqb Bool.eqb andb String.length Nat.eqb].
  destruct resto as [|c r].
  - reflexivity.
  - cbn [String.length Nat.eqb substring Nat.sub String.eqb].
    destruct (Ascii.eqb c " ") eqn:E.
    + rewrite Nat.sub_0_r, substring_tudo.
      destruct r; reflexivity.
    + destruct r; reflexivity.
Qed.

Lemma le_hora_prefixo (hh mm ss : Z) (resto : string) :
  0 <= hh < 24 -> 0 <= mm < 60 -> 0 <= ss < 60 ->
  le_hora (zfill 2 hh (String ":" (zfill 2 mm (String ":" (zfill 2 ss resto)))))
  = match resto with
    | EmptyString => Some (((hh * 60 + mm) * 60 + ss) * 1000000000)
    | String c r =>
        if Ascii.eqb c "."
        then option_map (Z.add (((hh * 60 + mm) * 60 + ss) * 1000000000)) (le_fracao r)
        else None
    end.
Proof.
  intros Hh Hm Hs.
  unfold le_hora. cbn [zfill substring]. rewrite !substring_0_0.
  rewrite (le_numero_2 hh), (le_numero_2 mm), (le_numero_2 ss) by lia.
  replace (hh <? 24) with true by (symmetry; apply Z.ltb_lt; lia).
  replace (mm <? 60) with true by (symmetry; apply Z.ltb_lt; lia).
  replace (ss <? 60) with true by (symmetry; apply Z.ltb_lt; lia).
  cbn [String.eqb Ascii.eqb Bool.eqb andb String.length Nat.eqb].
  destruct resto as [|c r].
  - reflexivity.
  - cbn [String.length Nat.eqb substring Nat.sub String.eqb].
    destruct (Ascii.eqb c ".") eqn:E.
    + rewrite Nat.sub_0_r, substring_tudo. destruct r; reflexivity.
    + destruct r; reflexivity.
Qed.

Lemma le_fracao_zfill (w : nat) (f : Z) :
  (w < 9)%nat -> 0 <= f < 10 ^ Z.of_nat (S w) ->
  le_fracao (zfill (S w) f "") = Some (f * 10 ^ Z.of_nat (9 - S w)).
Proof.
  intros Hw Hf. unfold le_fracao.
  rewrite length_zfill. cbn [String.length]. rewrite Nat.add_0_r.
  replace (Nat.leb 1 (S w)) with true by reflexivity.
  replace (Nat.leb (S w) 9) with true by (symmetry; apply Nat.leb_le; lia).
  cbn [andb]. now rewrite le_numero_zfill.
Qed.

Lemma resolucao_limite (t : Timestamp) (r : Resolucao) :
  (reso_rank (resolucao_de t) <= reso_rank r)%nat ->
  match r with
  | RESO_DAY => t mod NS_POR_DIA = 0
  | RESO_SEC => t mod 1000000000 = 0
  | RESO_MS => t mod 1000000 = 0
  | RESO_US => t mod 1000 = 0
  | RESO_NS => True
  end.
Proof.
  unfold resolucao_de, NS_POR_DIA.
  destruct (Z.eqb_spec (t mod 86400000000000) 0) as [E1|E1];
    [|destruct (Z.eqb_spec (t mod 1000000000) 0) as [E2|E2];
      [|destruct (Z.eqb_spec (t mod 1000000) 0) as [E3|E3];
        [|destruct (Z.eqb_spec (t mod 1000) 0) as [E4|E4]]]];
    destruct r; cbn [reso_rank]; intros H; try lia; try exact I;
    try assumption;
    revert E1; try revert E2; try revert E3; Z.div_mod_to_equations; lia.
Qed.

Lemma le_data_str_data (reso : Resolucao) (t : Timestamp) :
  em_datetime64 t ->
  (reso_rank (resolucao_de t) <= reso_rank reso)%nat ->
  le_data (str_data reso t) = Ok t.
Proof.
  intros Ht Hr. apply resolucao_limite in Hr.
  destruct (calendario_inverso (date_of t)) as (y & m & d & Hc & Hinv & Hm & Hd & _).
  pose proof (ano_quatro_digitos t y m d Ht Hc) as Hy.
  assert (Hciv : civil_from_days (days_from_civil y m d) = (y, m, d))
    by (rewrite Hinv; exact Hc).
  unfold str_data. rewrite Hc. cbv zeta.
  destruct reso;
    repeat (rewrite zfill_app; cbn [append]);
    rewrite le_data_prefixo by (assumption || lia);
    rewrite Hinv; unfold to_datetime, date_of, NS_POR_DIA in *.
  - f_equal. Z.div_mod_to_equations. lia.
  - cbn [Ascii.eqb Bool.eqb].
    rewrite le_hora_prefixo by (Z.div_mod_to_equations; lia).
    f_equal. Z.div_mod_to_equations. lia.
  - cbn [Ascii.eqb Bool.eqb].
    rewrite le_hora_prefixo by (Z.div_mod_to_equations; lia).
    cbn [Ascii.eqb Bool.eqb].
    rewrite (le_fracao_zfill 2) by (try lia; change (10 ^ Z.of_nat 3) with 1000; Z.div_mod_to_equations; lia).
    cbn [option_map]. change (10 ^ Z.of_nat (9 - 3)) with 1000000.
    f_equal. Z.div_mod_to_equations. lia.
  - cbn [Ascii.eqb Bool.eqb].
    rewrite le_hora_prefixo by (Z.div_mod_to_equations; lia).
    cbn [Ascii.eqb Bool.eqb].
    rewrite (le_fracao_zfill 5) by (try lia; change (10 ^ Z.of_nat 6) with 1000000; Z.div_mod_to_equations; lia).
    cbn [option_map]. change (10 ^ Z.of_nat (9 - 6)) with 1000.
    f_equal. Z.div_mod_to_equations. lia.
  - cbn [Ascii.eqb Bool.eqb].
    rewrite le_hora_prefixo by (Z.div_mod_to_equations; lia).
    cbn [Ascii.eqb Bool.eqb].
    rewrite (le_fracao_zfill 8) by (try lia; change (10 ^ Z.of_nat 9) with 1000000000; Z.div_mod_to_equations; lia).
    cbn [option_map]. change (10 ^ Z.of_nat (9 - 9)) with 1.
    f_equal. Z.div_mod_to_equations. lia.
Qed.

(** *** Tokenizing what the writer wrote *)

Lemma append_assoc (a b c : string) : ((a ++ b) ++ c = a ++ (b ++ c))%string.
Proof. induction a as [|x a IH]; cbn [append]; [reflexivity | now rewrite IH]. Qed.

Lemma especial_false (c : ascii) :
  especial c = false ->
  Ascii.eqb c VIRGULA = false /\ Ascii.eqb c ASPAS = false
  /\ Ascii.eqb c LF = false /\ Ascii.eqb c CR = false.
Proof. unfold especial. rewrite !orb_false_iff. tauto. Qed.

Lemma tokenize_sem_aspas (s : string) :
  tem_especial s = false ->
  forall resto campo linha feitas,
    tokenize (s ++ resto) IN_FIELD campo linha feitas
    = tokenize resto IN_FIELD (rev (list_ascii_of_string s) ++ campo) linha feitas.
Proof.
  induction s as [|c s IH]; intros Hs resto campo linha feitas; [reflexivity|].
  cbn [tem_especial] in Hs. apply orb_false_iff in Hs. destruct Hs as [Hc Hs].
  destruct (especial_false c Hc) as (E1 & E2 & E3 & E4).
  cbn [append tokenize list_ascii_of_string rev]. rewrite E1, E3, E4.
  rewrite (IH Hs). now rewrite <- app_assoc.
Qed.

Lemma tokenize_entre_aspas (s : string) :
  forall resto campo linha feitas,
    tokenize (dobra_aspas s ++ String ASPAS resto) IN_QUOTED_FIELD campo linha feitas
    = tokenize resto QUOTE_IN_QUOTED_FIELD
        (rev (list_ascii_of_string s) ++ campo) linha feitas.
Proof.
  induction s as [|c s IH]; intros resto campo linha feitas.
  - cbn [dobra_aspas append tokenize]. now rewrite Ascii.eqb_refl.
  - cbn [dobra_aspas list_ascii_of_string rev].
    destruct (Ascii.eqb c ASPAS) eqn:E.
    + apply Ascii.eqb_eq in E. subst c.
      cbn [append tokenize]. rewrite !Ascii.eqb_refl.
      rewrite IH. now rewrite <- app_assoc.
    + cbn [append tokenize]. rewrite E.
      rewrite IH. now rewrite <- app_assoc.
Qed.

Lemma fecha_campo_rev (s : string) (linha : list string) :
  fecha_campo (rev (list_ascii_of_string s) ++ []) linha = s :: linha.
Proof.
  unfold fecha_campo. rewrite app_nil_r, rev_involutive.
  now rewrite string_of_list_ascii_of_string.
Qed.

Lemma fecha_campo_rev_cons (c : ascii) (s : string) (linha : list string) :
  fecha_campo (rev (list_ascii_of_string s) ++ [c]) linha = String c s :: linha.
Proof.
  unfold fecha_campo. rewrite rev_app_distr, rev_involutive.
  cbn [rev app string_of_list_ascii].
  now rewrite string_of_list_ascii_of_string.
Qed.

(** A field and the comma after it, inside a record. *)
Lemma tokenize_campo_virgula (s resto : string) (linha : list string)
  (feitas : list (list string)) :
  tokenize (campo_csv s ++ String VIRGULA resto) START_FIELD [] linha feitas
  = tokenize resto START_FIELD [] (s :: linha) feitas.
Proof.
  unfold campo_csv. destruct (tem_especial s) eqn:Hs.
  - cbn [append tokenize].
    change (Ascii.eqb ASPAS LF) with false. change (Ascii.eqb ASPAS CR) with false.
    rewrite Ascii.eqb_refl. cbv iota.
    rewrite append_assoc. cbn [append].
    rewrite tokenize_entre_aspas. cbn [tokenize].
    change (Ascii.eqb VIRGULA ASPAS) with false. rewrite Ascii.eqb_refl.
    now rewrite fecha_campo_rev.
  - destruct s as [|c s].
    + cbn [append tokenize].
      change (Ascii.eqb VIRGULA LF) with false. change (Ascii.eqb VIRGULA CR) with false.
      change (Ascii.eqb VIRGULA ASPAS) with false. now rewrite Ascii.eqb_refl.
    + cbn [tem_especial] in Hs. apply orb_false_iff in Hs. destruct Hs as [Hc Hs].
      destruct (especial_false c Hc) as (E1 & E2 & E3 & E4).
      cbn [append tokenize]. rewrite E1, E2, E3, E4.
      rewrite (tokenize_sem_aspas s Hs). cbn [tokenize].
      change (Ascii.eqb VIRGULA LF) with false. change (Ascii.eqb VIRGULA CR) with false.
      rewrite Ascii.eqb_refl. now rewrite fecha_campo_rev_cons.
Qed.

(** The last field of a record and the line feed after it. *)
Lemma tokenize_campo_lf (s resto : string) (linha : list string)
  (feitas : list (list string)) :
  tokenize (campo_csv s ++ String LF resto) START_FIELD [] linha feitas
  = tokenize resto START_RECORD [] [] (rev (s :: linha) :: feitas).
Proof.
  unfold campo_csv. destruct (tem_especial s) eqn:Hs.
  - cbn [append tokenize].
    change (Ascii.eqb ASPAS LF) with false. change (Ascii.eqb ASPAS CR) with false.
    rewrite Ascii.eqb_refl. cbv iota.
    rewrite append_assoc. cbn [append].
    rewrite tokenize_entre_aspas. cbn [tokenize].
    change (Ascii.eqb LF ASPAS) with false. change (Ascii.eqb LF VIRGULA) with false.
    rewrite Ascii.eqb_refl. now rewrite fecha_campo_rev.
  - destruct s as [|c s].
    + cbn [append tokenize]. now rewrite Ascii.eqb_refl.
    + cbn [tem_especial] in Hs. apply orb_false_iff in Hs. destruct Hs as [Hc Hs].
      destruct (especial_false c Hc) as (E1 & E2 & E3 & E4).
      cbn [append tokenize]. rewrite E1, E2, E3, E4.
      rewrite (tokenize_sem_aspas s Hs). cbn [tokenize].
      rewrite Ascii.eqb_refl. now rewrite fecha_campo_rev_cons.
Qed.

Lemma append_nil_r (a : string) : (a ++ "")%string = a.
Proof. induction a as [|x a IH]; cbn [append]; [reflexivity | now rewrite IH]. Qed.

Lemma tokenize_campos (fs : list string) :
  fs <> [] ->
  forall resto linha feitas,
    tokenize (junta (map campo_csv fs) ++ String LF resto) START_FIELD [] linha feitas
    = tokenize resto START_RECORD [] [] ((rev linha ++ fs) :: feitas).
Proof.
  induction fs as [|f fs IH]; [congruence|]. intros _ resto linha feitas.
  destruct fs as [|g fs].
  - cbn [map junta]. now rewrite tokenize_campo_lf.
  - change (junta (map campo_csv (f :: g :: fs)))
      with (campo_csv f ++ String VIRGULA (junta (map campo_csv (g :: fs))))%string.
    rewrite append_assoc. cbn [append].
    rewrite tokenize_campo_virgula, IH by discriminate.
    cbn [rev]. now rewrite <- app_assoc.
Qed.

(** At its first character a record that opens with a field and a comma
    is read as a field is. *)
Lemma tokenize_inicio (f resto : string) (feitas : list (list string)) :
  tokenize (campo_csv f ++ String VIRGULA resto) START_RECORD [] [] feitas
  = tokenize (campo_csv f ++ String VIRGULA resto) START_FIELD [] [] feitas.
Proof.
  unfold campo_csv. destruct (tem_especial f) eqn:Hf.
  - reflexivity.
  - destruct f as [|c f].
    + reflexivity.
    + cbn [tem_especial] in Hf. apply orb_false_iff in Hf. destruct Hf as [Hc _].
      destruct (especial_false c Hc) as (E1 & E2 & E3 & E4).
      cbn [append tokenize]. now rewrite E1, E2, E3, E4.
Qed.

Lemma tokenize_registro (f g : string) (fs : list string) (resto : string)
  (feitas : list (list string)) :
  tokenize (linha_csv (f :: g :: fs) ++ resto) START_RECORD [] [] feitas
  = tokenize resto START_RECORD [] [] ((f :: g :: fs) :: feitas).
Proof.
  unfold linha_csv.
  change (junta (map campo_csv (f :: g :: fs)))
    with (campo_csv f ++ String VIRGULA (junta (map campo_csv (g :: fs))))%string.
  rewrite !append_assoc. cbn [append].
  rewrite tokenize_inicio, tokenize_campo_virgula.
  now rewrite tokenize_campos by discriminate.
Qed.

Lemma concat_vazio_cons (x : string) (xs : list string) :
  String.concat "" (x :: xs) = (x ++ String.concat "" xs)%string.
Proof. destruct xs; cbn [String.concat append]; [now rewrite append_nil_r | reflexivity]. Qed.

Lemma tokenize_linhas (ls : list (list string)) :
  Forall dois_campos ls ->
  forall feitas,
    tokenize (String.concat "" (map linha_csv ls)) START_RECORD [] [] feitas
    = rev feitas ++ ls.
Proof.
  induction 1 as [|l ls (f & g & fs & ->) _ IH]; intros feitas.
  - cbn. now rewrite app_nil_r.
  - cbn [map]. rewrite concat_vazio_cons, tokenize_registro, IH.
    cbn [rev]. now rewrite <- app_assoc.
Qed.

(** *** Reading back what was exported *)

Lemma le_texto_presente (s : string) : texto_presente s -> le_texto s = Ok s.
Proof. unfold texto_presente, le_texto. now intros ->. Qed.

Lemma reso_fina_rank (a b : Resolucao) :
  reso_rank (reso_fina a b) = Nat.max (reso_rank a) (reso_rank b).
Proof.
  unfold reso_fina. destruct (Nat.leb_spec (reso_rank a) (reso_rank b)); lia.
Qed.

Lemma get_resolution_cobre (col : list Timestamp) (t : Timestamp) :
  In t col -> (reso_rank (resolucao_de t) <= reso_rank (get_resolution col))%nat.
Proof.
  induction col as [|a col IH]; cbn [In get_resolution fold_right]; [tauto|].
  fold (get_resolution col). rewrite reso_fina_rank.
  intros [->|H]; [lia | specialize (IH H); lia].
Qed.

Lemma le_chamado_celulas (reso : Resolucao) (r : Chamado) (extra : list string) :
  chamado_exportavel r ->
  (reso_rank (resolucao_de (data r)) <= reso_rank reso)%nat ->
  le_chamado (celulas reso r ++ extra) = Ok (r, extra).
Proof.
  intros (Hs & Hst & Ht) Hr. unfold celulas. cbn [app le_chamado].
  rewrite !le_int_str_int. cbn [bind].
  rewrite (le_texto_presente _ Hs). cbn [bind].
  rewrite (le_data_str_data _ _ Ht Hr). cbn [bind].
  rewrite (le_texto_presente _ Hst). cbn [bind].
  now destruct r.
Qed.

Lemma sequencia_ok {A B} (h : A -> Resultado B) (k : A -> B) (l : list A) :
  (forall x, In x l -> h x = Ok (k x)) -> sequencia (map h l) = Ok (map k l).
Proof.
  induction l as [|a l IH]; intros H; [reflexivity|].
  cbn [map sequencia]. rewrite (H a (or_introl eq_refl)). cbn [bind].
  rewrite IH; [reflexivity|]. intros x Hx. apply H. now right.
Qed.

(** Exporting a frame and loading the text gives the frame back. *)
Theorem carregar_to_csv (df : DataFrame) :
  exportavel df -> carregar (to_csv df) = Ok df.
Proof.
  intros Hdf. unfold carregar, to_csv.
  set (reso := get_resolution (map data (registros df))).
  assert (Hreso : forall r, In r (registros df) ->
            (reso_rank (resolucao_de (data r)) <= reso_rank reso)%nat)
    by (intros r Hr; apply get_resolution_cobre; now apply in_map).
  destruct df as [l|l]; cbn [columns exportavel registros] in *.
  - change esquema with ("ID" :: "setor" :: ["data"; "status"; "tempo_resolucao"]) at 1.
    rewrite tokenize_registro, tokenize_linhas.
    2:{ apply Forall_forall. intros x Hx. apply in_map_iff in Hx.
        destruct Hx as (r & <- & _). unfold celulas. now eexists _, _, _. }
    cbn [rev app].
    change (list_string_eqb ["ID"; "setor"; "data"; "status"; "tempo_resolucao"] esquema)
      with true.
    cbv iota. rewrite map_map.
    rewrite (sequencia_ok _ (fun r => r)).
    + cbn [bind]. now rewrite map_id.
    + intros r Hr. rewrite <- (app_nil_r (celulas reso r)).
      rewrite le_chamado_celulas; [reflexivity | | now apply Hreso].
      rewrite Forall_forall in Hdf. now apply Hdf.
  - change (esquema ++ ["mes"])
      with ("ID" :: "setor" :: ["data"; "status"; "tempo_resolucao"; "mes"]) at 1.
    rewrite tokenize_registro, tokenize_linhas.
    2:{ apply Forall_forall. intros x Hx. apply in_map_iff in Hx.
        destruct Hx as (r & <- & _). unfold celulas. now eexists _, _, _. }
    cbn [rev app].
    change (list_string_eqb ["ID"; "setor"; "data"; "status"; "tempo_resolucao"; "mes"]
              esquema) with false.
    change (list_string_eqb ["ID"; "setor"; "data"; "status"; "tempo_resolucao"; "mes"]
              (esquema ++ ["mes"])) with true.
    cbv iota. rewrite map_map.
    rewrite (sequencia_ok _ (fun p => p)).
    + cbn [bind]. now rewrite map_id.
    + intros p Hp. rewrite Forall_forall in Hdf. destruct (Hdf p Hp) as [Hc Hm].
      rewrite le_chamado_celulas; [| assumption | apply Hreso; now apply in_map].
      cbn [bind snd fst]. rewrite (le_texto_presente _ Hm). cbn [bind].
      now destruct p.
Qed.

Lemma to_period_M_presente (t : Timestamp) : texto_presente (to_period_M t).
Proof.
  unfold texto_presente, to_period_M.
  destruct (civil_from_days (date_of t)) as [[y m] d]. cbn [zfill].
  match goal with |- ?b = false => destruct b eqn:E; [|reflexivity] end.
  apply isin_In in E. unfold na_values in E. cbn [In] in E.
  repeat (destruct E as [E|E]; [discriminate E|]). destruct E.
Qed.

Lemma exportavel_atribui_mes (f : DataFrame) :
  Forall chamado_exportavel (registros f) -> exportavel (atribui_mes f).
Proof.
  intros H. unfold atribui_mes. cbn [exportavel].
  apply Forall_forall. intros p Hp. apply in_map_iff in Hp.
  destruct Hp as (r & <- & Hr). cbn [fst snd]. split.
  - rewrite Forall_forall in H. now apply H.
  - apply to_period_M_presente.
Qed.

(** On a non-empty subset of exportable tickets the download, loaded
    again, is the subset with its column ["mes"]. *)
Lemma exportacao_recarregada (df : DataFrame) (sel : Selecao) (f : DataFrame) :
  df_filtrado df sel = Ok f -> empty f = false ->
  Forall chamado_exportavel (registros f) ->
  exists p csv,
    pagina df sel = Ok p /\ download p = Some csv
    /\ carregar csv = Ok (atribui_mes f).
Proof.
  intros Hf He Hx.
  destruct (pagina_nao_vazia df sel f Hf He) as (m & _ & Hp).
  do 2 eexists. split; [exact Hp|]. split; [reflexivity|].
  apply carregar_to_csv. now apply exportavel_atribui_mes.
Qed.

(** ** The header of an export *)

Lemma tokenize_feitas (s : string) :
  forall st campo linha feitas,
    tokenize s st campo linha feitas
    = rev feitas ++ tokenize s st campo linha [].
Proof.
  induction s as [|c s IH]; intros st campo linha feitas.
  - destruct st; simpl; rewrite ?app_nil_r; reflexivity.
  - destruct st; simpl;
      repeat match goal with
             | |- context [if ?b then _ else _] => destruct b
             end;
      first [ apply IH
            | rewrite (IH _ _ _ (_ :: feitas)), (IH _ _ _ [_]); simpl;
              now rewrite <- app_assoc ].
Qed.

(** Whatever the rows, an export of a frame that carries ["mes"] reloads,
    when it reloads, to a frame of six columns. *)
Lemma carregar_exportacao_com_mes (l : list (Chamado * string)) (g : DataFrame) :
  carregar (to_csv (TabelaMes l)) = Ok g -> columns g = esquema ++ ["mes"].
Proof.
  unfold carregar, to_csv. simpl columns.
  change (linha_csv (esquema ++ ["mes"]))
    with ("ID,setor,data,status,tempo_resolucao,mes" ++ String LF EmptyString)%string.
  simpl. rewrite tokenize_feitas. simpl.
  change (list_string_eqb ["ID"; "setor"; "data"; "status"; "tempo_resolucao"; "mes"] esquema)
    with false.
  change (list_string_eqb ["ID"; "setor"; "data"; "status"; "tempo_resolucao"; "mes"]
            (esquema ++ ["mes"])) with true.
  cbv iota.
  match goal with
  | |- bind ?m _ = _ -> _ => destruct m as [ls|e]; simpl; [|discriminate]
  end.
  now intros [= <-].
Qed.

Lemma download_com_mes (df : DataFrame) (sel : Selecao) (p : Pagina)
  (csv : string) (g : DataFrame) :
  pagina df sel = Ok p -> download p = Some csv -> carregar csv = Ok g ->
  columns g = esquema ++ ["mes"].
Proof.
  intros Hp Hd Hg.
  destruct (df_filtrado df sel) as [f|e] eqn:Hf;
    [|unfold pagina in Hp; rewrite Hf in Hp; discriminate].
  destruct (empty f) eqn:He.
  - rewrite (pagina_vazia df sel f Hf He) in Hp. injection Hp as <-. discriminate.
  - destruct (pagina_nao_vazia df sel f Hf He) as (m & _ & Hp').
    rewrite Hp' in Hp. injection Hp as <-. simpl in Hd. injection Hd as <-.
    now apply carregar_exportacao_com_mes in Hg.
Qed.

(** * Statements of the specification *)

(** ** The filter predicate *)

(** C1 (the code departs from it).  The claim puts a row in the filtered
    subset exactly when its sector and status are selected and the day it
    was opened lies between the two selected days, both included.  The
    script compares the timestamp with midnight of the end day, so a ticket
    opened at noon of the end day meets the three conditions and is left
    out: here the single ticket of 2024-01-05 12:00, filtered on
    [2024-01-05, 2024-01-05] with its own sector and status selected. *)
Theorem filtro_exclui_horas_do_ultimo_dia :
  let r := chamado_meio_dia in
  let dia := days_from_civil 2024 1 5 in
  let sel := mkSelecao [dia; dia] ["TI"] ["Aberto"] in
  In (setor r) (setores_sel sel)
  /\ In (status r) (status_sel sel)
  /\ dia <= date_of (data r) <= dia
  /\ df_filtrado (Tabela [r]) sel = Ok (Tabela []).
Proof.
  cbv zeta. repeat split.
  - simpl. auto.
  - simpl. auto.
  - vm_compute. discriminate.
  - vm_compute. discriminate.
Qed.

(** C8.  Filtering is idempotent: filtering the subset again with the same
    selection gives the same subset, rows and order. *)
Theorem filtro_idempotente (df : DataFrame) (sel : Selecao) (f : DataFrame) :
  df_filtrado df sel = Ok f -> df_filtrado f sel = Ok f.
Proof.
  intros H. destruct (df_filtrado_inv df sel f H) as (ini & fim & resto & Ed & ->).
  unfold df_filtrado, item. rewrite Ed. simpl.
  now rewrite seleciona_idem.
Qed.

Lemma filtro_idempotente_witness :
  let df := tabela_exemplo "Resolvido" "Aberto" in
  df_filtrado df (selecao_exemplo df) = Ok (Tabela (firstn 2 (registros df)))
  /\ df_filtrado (Tabela (firstn 2 (registros df))) (selecao_exemplo df)
     = Ok (Tabela (firstn 2 (registros df))).
Proof.
  split; [reflexivity|].
  exact (filtro_idempotente (tabela_exemplo "Resolvido" "Aberto")
           (selecao_exemplo (tabela_exemplo "Resolvido" "Aberto"))
           (Tabela (firstn 2 (registros (tabela_exemplo "Resolvido" "Aberto"))))
           eq_refl).
Defined.

(** C10 (the code departs from it).  With the widgets untouched the claim
    expects the whole table back.  [st.date_input] hands back the day of
    the latest ticket, the filter compares with the midnight that opens that
    day, and the latest ticket, opened at 14:00, is dropped: of the three
    tickets the page keeps ids 1 and 3. *)
Theorem selecao_padrao_perde_chamado :
  let df := tabela_com_horas in
  exists sel f,
    selecao_padrao df = Some sel
    /\ datas_selecionadas sel = [days_from_civil 2024 1 5; days_from_civil 2024 2 10]
    /\ setores_sel sel = ["RH"; "TI"]
    /\ status_sel sel = ["Aberto"; "Resolvido"]
    /\ df_filtrado df sel = Ok f
    /\ map ID (registros f) = [1; 3]
    /\ f <> df.
Proof.
  cbv zeta. do 2 eexists.
  split; [reflexivity|].
  repeat split; try (vm_compute; reflexivity).
  vm_compute. discriminate.
Qed.

(** ** The four KPIs *)

(** C3.  When the filtered subset is empty the four KPIs are computed
    without an exception and take their neutral values: mean time 0, rate 0,
    total 0 and the placeholder ["-"] for the top sector; the whole
    rendering pass goes through with them. *)
Theorem metricas_do_subconjunto_vazio (df : DataFrame) (sel : Selecao) (f : DataFrame) :
  df_filtrado df sel = Ok f -> empty f = true ->
  kpis f = Ok (mkKPIs (Num 0) (Num 0) O "-")
  /\ exists p, pagina df sel = Ok p /\ metricas p = mkKPIs (Num 0) (Num 0) O "-".
Proof.
  intros Hf He. split.
  - exact (kpis_vazio f He).
  - eexists. split; [exact (pagina_vazia df sel f Hf He) | reflexivity].
Qed.

(** The empty-selection scenario: no sector selected. *)
Lemma metricas_do_subconjunto_vazio_witness :
  let df := tabela_exemplo "Resolvido" "Aberto" in
  let sel := mkSelecao [days_from_civil 2024 1 1; days_from_civil 2024 12 31]
                       [] (status_disponiveis df) in
  df_filtrado df sel = Ok (Tabela [])
  /\ kpis (Tabela []) = Ok (mkKPIs (Num 0) (Num 0) O "-")
  /\ exists p, pagina df sel = Ok p /\ metricas p = mkKPIs (Num 0) (Num 0) O "-".
Proof.
  split; [reflexivity|].
  exact (metricas_do_subconjunto_vazio
           (tabela_exemplo "Resolvido" "Aberto")
           (mkSelecao [days_from_civil 2024 1 1; days_from_civil 2024 12 31]
                      [] (status_disponiveis (tabela_exemplo "Resolvido" "Aberto")))
           (Tabela []) eq_refl eq_refl).
Defined.

(** C5, as amended.  On a non-empty subset the top sector is a sector of the
    subset of maximal frequency, and among the sectors tied at that
    frequency it is the least in string order (not the first met). *)
Theorem setor_top_empate_menor_rotulo (f : DataFrame) :
  empty f = false ->
  exists k, kpis f = Ok k
    /\ In (setor_top k) (map setor (registros f))
    /\ (forall s, (conta s (map setor (registros f))
                   <= conta (setor_top k) (map setor (registros f)))%nat)
    /\ (forall s, In s (map setor (registros f)) ->
                  conta s (map setor (registros f))
                  = conta (setor_top k) (map setor (registros f)) ->
                  String.leb (setor_top k) s = true).
Proof.
  intros He.
  destruct (kpis_nao_vazio f He) as (s & Hs & Hk).
  destruct (primeiro_mode (map setor (registros f)) (coluna_nao_vazia setor f He))
    as (s' & Hs' & Hin & Hc & Hmin).
  rewrite Hs in Hs'. injection Hs' as <-.
  eexists. split; [exact Hk|]. simpl. repeat split.
  - assumption.
  - intros t. rewrite Hc. apply conta_le_freq_max.
  - intros t Ht Et. apply Hmin; [assumption | congruence].
Qed.

Lemma setor_top_empate_menor_rotulo_witness :
  empty dois_setores = false
  /\ exists k, kpis dois_setores = Ok k
    /\ In (setor_top k) (map setor (registros dois_setores))
    /\ (forall s, (conta s (map setor (registros dois_setores))
                   <= conta (setor_top k) (map setor (registros dois_setores)))%nat)
    /\ (forall s, In s (map setor (registros dois_setores)) ->
                  conta s (map setor (registros dois_setores))
                  = conta (setor_top k) (map setor (registros dois_setores)) ->
                  String.leb (setor_top k) s = true).
Proof.
  split; [reflexivity|].
  exact (setor_top_empate_menor_rotulo dois_setores eq_refl).
Defined.

(** C5 as stated fails: with one ticket of "TI" followed by one of "RH" the
    two sectors are tied, "TI" is met first, and the page shows "RH". *)
Lemma setor_top_nao_e_a_primeira_ocorrencia :
  empty dois_setores = false
  /\ moda_primeira_ocorrencia (map setor (registros dois_setores)) = Some "TI"
  /\ exists k, kpis dois_setores = Ok k
       /\ setor_top k = "RH"
       /\ Some (setor_top k)
          <> moda_primeira_ocorrencia (map setor (registros dois_setores)).
Proof.
  split; [reflexivity|]. split; [reflexivity|].
  eexists. split; [reflexivity|]. split; [reflexivity|].
  vm_compute. discriminate.
Qed.




(** ** The chart tables *)

(** C7.  The by-sector counts (line 101) add up to the number of rows of
    the subset (line 79), and so do the by-status counts (line 118). *)
Theorem contagens_somam_o_total (f : DataFrame) :
  list_sum (map snd (groupby_count (map setor (registros f)))) = shape0 f
  /\ list_sum (map snd (value_counts (map status (registros f)))) = shape0 f.
Proof.
  unfold shape0. split.
  - rewrite groupby_count_soma. apply length_map.
  - rewrite value_counts_soma. apply length_map.
Qed.

(** The same on the page: whenever the two charts are drawn, their counts
    add up to the "Total de Chamados" shown above them. *)
Lemma contagens_da_pagina (df : DataFrame) (sel : Selecao) (p : Pagina) :
  pagina df sel = Ok p ->
  (forall t, chamados_por_setor p = Some t ->
     list_sum (map snd t) = total_chamados (metricas p))
  /\ (forall t, status_count p = Some t ->
     list_sum (map snd t) = total_chamados (metricas p)).
Proof.
  intros Hp. pose proof (pagina_total df sel p Hp) as Ht.
  destruct (df_filtrado df sel) as [f|e] eqn:Hf;
    [|unfold pagina in Hp; rewrite Hf in Hp; discriminate].
  destruct (empty f) eqn:He.
  - rewrite (pagina_vazia df sel f Hf He) in Hp. injection Hp as <-.
    simpl. split; discriminate.
  - destruct (pagina_nao_vazia df sel f Hf He) as (m & _ & Hp').
    rewrite Hp' in Hp. injection Hp as <-. simpl in *.
    rewrite Ht. unfold shape0 at 1 2. rewrite registros_atribui_mes.
    split; intros t [= <-]; apply contagens_somam_o_total.
Qed.

(** ** The column added by the monthly chart *)

(** C9.  When the filtered subset is not empty, the frame that reaches the
    export and the detail table has six columns: the five of the schema and
    ["mes"], the year-month of each ticket's [data]; its rows are otherwise
    those of the subset, and the exported text opens with the six-name
    header. *)
Theorem coluna_mes_na_exportacao (df : DataFrame) (sel : Selecao) (f : DataFrame) :
  df_filtrado df sel = Ok f -> empty f = false ->
  exists p csv,
    pagina df sel = Ok p
    /\ columns (detalhados p)
       = ["ID"; "setor"; "data"; "status"; "tempo_resolucao"; "mes"]
    /\ registros (detalhados p) = registros f
    /\ coluna_mes (detalhados p)
       = Ok (map (fun r => to_period_M (data r)) (registros f))
    /\ download p = Some csv
    /\ csv = to_csv (detalhados p)
    /\ exists corpo,
         csv = ("ID,setor,data,status,tempo_resolucao,mes" ++ String LF corpo)%string.
Proof.
  intros Hf He.
  destruct (pagina_nao_vazia df sel f Hf He) as (m & _ & Hp).
  do 2 eexists. split; [exact Hp|]. simpl.
  split; [reflexivity|].
  split; [rewrite map_map; apply map_id|].
  split; [now rewrite map_map|].
  split; [reflexivity|].
  split; [reflexivity|].
  unfold to_csv. simpl columns. eexists. reflexivity.
Qed.

Lemma coluna_mes_na_exportacao_witness :
  let df := tabela_exemplo "Resolvido" "Aberto" in
  let f := Tabela (firstn 2 (registros df)) in
  df_filtrado df (selecao_exemplo df) = Ok f
  /\ empty f = false
  /\ exists p csv,
       pagina df (selecao_exemplo df) = Ok p
       /\ columns (detalhados p)
          = ["ID"; "setor"; "data"; "status"; "tempo_resolucao"; "mes"]
       /\ registros (detalhados p) = registros f
       /\ coluna_mes (detalhados p)
          = Ok (map (fun r => to_period_M (data r)) (registros f))
       /\ download p = Some csv
       /\ csv = to_csv (detalhados p)
       /\ exists corpo,
            csv = ("ID,setor,data,status,tempo_resolucao,mes" ++ String LF corpo)%string.
Proof.
  split; [reflexivity|]. split; [reflexivity|].
  exact (coluna_mes_na_exportacao
           (tabela_exemplo "Resolvido" "Aberto")
           (selecao_exemplo (tabela_exemplo "Resolvido" "Aberto"))
           (Tabela (firstn 2 (registros (tabela_exemplo "Resolvido" "Aberto"))))
           eq_refl eq_refl).
Defined.

(** ** Export and reload *)

(** C4 (the code departs from it).  The claim expects the export of a
    non-empty subset, loaded again, to be the subset: same rows, same five
    columns.  The frame exported at line 176 is the one line 155 gave the
    column ["mes"], so the reloaded table has six columns and is not the
    subset, although its rows agree with it on the five schema columns.
    Here the subset is tickets 1 and 2 of the worked scenario; exporting
    the subset as line 67 left it would reload to the subset itself. *)
Theorem exportacao_recarregada_tem_coluna_a_mais :
  let df := tabela_exemplo "Resolvido" "Aberto" in
  exists f p csv g,
    df_filtrado df (selecao_exemplo df) = Ok f
    /\ empty f = false
    /\ pagina df (selecao_exemplo df) = Ok p
    /\ download p = Some csv
    /\ carregar csv = Ok g
    /\ columns f = ["ID"; "setor"; "data"; "status"; "tempo_resolucao"]
    /\ columns g = ["ID"; "setor"; "data"; "status"; "tempo_resolucao"; "mes"]
    /\ registros g = registros f
    /\ g <> f
    /\ carregar (to_csv f) = Ok f.
Proof.
  cbv zeta. do 4 eexists.
  split; [reflexivity|]. split; [reflexivity|].
  split; [vm_compute; reflexivity|]. split; [reflexivity|].
  split; [vm_compute; reflexivity|].
  repeat split; try (vm_compute; reflexivity).
  vm_compute. discriminate.
Qed.

(** ** The worked scenario *)

(** C2, as amended.  With the statuses written as the script writes them
    ("Resolvido", "Aberto") the three-ticket table gives the subset
    {id 1, id 2}, mean time 7.5, rate 50, total 2, top sector "TI" and one
    ticket in each of 2024-01 and 2024-02.  With the statuses written
    "Resolved" and "Open" every figure is the same but the rate, which
    is 0. *)
Theorem cenario_tres_chamados :
  cenario_confere (tabela_exemplo "Resolvido" "Aberto") 50
  /\ cenario_confere (tabela_exemplo "Resolved" "Open") 0.
Proof.
  split; do 2 eexists;
    (split; [reflexivity|]); (split; [reflexivity|]);
    (split; [vm_compute; reflexivity|]);
    repeat split; reflexivity.
Qed.

(** C2 as stated fails: on the table with statuses "Resolved" and "Open"
    the scenario does not come out with a rate of 50. *)
Lemma cenario_rotulos_em_ingles :
  ~ cenario_confere (tabela_exemplo "Resolved" "Open") 50.
Proof.
  intros (f & p & _ & _ & Hp & _ & Ht & _).
  vm_compute in Hp. injection Hp as <-. simpl in Ht. discriminate Ht.
Qed.

(** * Further properties of the script *)

(** ** The monthly buckets *)

Lemma mes_corrido_formula (n : date) :
  let z := n + 719468 in
  let era := z / 146097 in
  let doe := z - era * 146097 in
  let yoe := (doe - doe / 1460 + doe / 36524 - doe / 146096) / 365 in
  let doy := doe - (365 * yoe + yoe / 4 - yoe / 100) in
  let mp := (5 * doy + 2) / 153 in
  mes_corrido n = 12 * (yoe + era * 400) + mp + 3.
Proof.
  cbv zeta. unfold mes_corrido, civil_from_days.
  set (z := n + 719468).
  set (era := z / 146097).
  set (doe := z - era * 146097).
  assert (Hdoe : 0 <= doe <= 146096)
    by (subst doe era; Z.div_mod_to_equations; lia).
  destruct (ano_da_era doe Hdoe) as [Hyoe Hdoy].
  set (yoe := (doe - doe / 1460 + doe / 36524 - doe / 146096) / 365) in *.
  set (doy := doe - (365 * yoe + yoe / 4 - yoe / 100)) in *.
  set (mp := (5 * doy + 2) / 153).
  assert (Hmp : 0 <= mp <= 11) by (subst mp; Z.div_mod_to_equations; lia).
  destruct (mp <? 10) eqn:E; [apply Z.ltb_lt in E | apply Z.ltb_ge in E].
  - replace (mp + 3 <=? 2) with false by (symmetry; apply Z.leb_gt; lia). lia.
  - replace (mp - 9 <=? 2) with true by (symmetry; apply Z.leb_le; lia). lia.
Qed.

Lemma ano_da_era_monotono (a b : Z) :
  0 <= a <= b -> b <= 146096 ->
  let ya := (a - a / 1460 + a / 36524 - a / 146096) / 365 in
  let yb := (b - b / 1460 + b / 36524 - b / 146096) / 365 in
  ya <= yb /\ (ya = yb -> a - (365 * ya + ya / 4 - ya / 100) <= b - (365 * yb + yb / 4 - yb / 100)).
Proof.
  intros H1 H2 ya yb. subst ya yb. Z.div_mod_to_equations. lia.
Qed.

Lemma mes_corrido_monotono (n1 n2 : date) :
  n1 <= n2 -> mes_corrido n1 <= mes_corrido n2.
Proof.
  intros H. rewrite (mes_corrido_formula n1), (mes_corrido_formula n2).
  set (era1 := (n1 + 719468) / 146097).
  set (era2 := (n2 + 719468) / 146097).
  set (doe1 := n1 + 719468 - era1 * 146097).
  set (doe2 := n2 + 719468 - era2 * 146097).
  assert (Hd1 : 0 <= doe1 <= 146096) by (subst doe1 era1; Z.div_mod_to_equations; lia).
  assert (Hd2 : 0 <= doe2 <= 146096) by (subst doe2 era2; Z.div_mod_to_equations; lia).
  assert (He : era1 <= era2) by (subst era1 era2; apply Z.div_le_mono; lia).
  destruct (ano_da_era doe1 Hd1) as [Hy1 Hdy1].
  destruct (ano_da_era doe2 Hd2) as [Hy2 Hdy2].
  set (yoe1 := (doe1 - doe1 / 1460 + doe1 / 36524 - doe1 / 146096) / 365) in *.
  set (yoe2 := (doe2 - doe2 / 1460 + doe2 / 36524 - doe2 / 146096) / 365) in *.
  set (doy1 := doe1 - (365 * yoe1 + yoe1 / 4 - yoe1 / 100)) in *.
  set (doy2 := doe2 - (365 * yoe2 + yoe2 / 4 - yoe2 / 100)) in *.
  assert (Hm1 : 0 <= (5 * doy1 + 2) / 153 <= 11) by (Z.div_mod_to_equations; lia).
  assert (Hm2 : 0 <= (5 * doy2 + 2) / 153 <= 11) by (Z.div_mod_to_equations; lia).
  destruct (Z.eq_dec era1 era2) as [Ee|Ne]; [|lia].
  assert (Hdoe : doe1 <= doe2) by (subst doe1 doe2; lia).
  destruct (ano_da_era_monotono doe1 doe2 ltac:(lia) ltac:(lia)) as [Hy Hdoy].
  fold yoe1 yoe2 in Hy, Hdoy. fold doy1 doy2 in Hdoy.
  destruct (Z.eq_dec yoe1 yoe2) as [Ey|Ny]; [|lia].
  specialize (Hdoy Ey).
  assert ((5 * doy1 + 2) / 153 <= (5 * doy2 + 2) / 153) by (apply Z.div_le_mono; lia).
  lia.
Qed.

Lemma compare_digito (a b : Z) :
  Ascii.compare (digito a) (digito b) = (a mod 10 ?= b mod 10).
Proof.
  unfold Ascii.compare, digito, ascii_of_nat.
  pose proof (Z.mod_pos_bound a 10 ltac:(lia)).
  pose proof (Z.mod_pos_bound b 10 ltac:(lia)).
  rewrite !N_ascii_embedding by lia.
  rewrite <- N2Z.inj_compare, !nat_N_Z, !Nat2Z.inj_add, !Z2Nat.id by lia.
  apply Z.add_compare_mono_l.
Qed.

Lemma compare_String (c1 c2 : ascii) (s1 s2 : string) :
  String.compare (String c1 s1) (String c2 s2)
  = match Ascii.compare c1 c2 with
    | Eq => String.compare s1 s2
    | c => c
    end.
Proof. cbn [String.compare]. now destruct (Ascii.compare c1 c2). Qed.

(** Zero-padded numbers of one width compare as the numbers do. *)
Lemma compare_zfill (w : nat) :
  forall a b r1 r2,
    0 <= a < 10 ^ Z.of_nat w -> 0 <= b < 10 ^ Z.of_nat w ->
    String.compare (zfill w a r1) (zfill w b r2)
    = match a ?= b with
      | Eq => String.compare r1 r2
      | c => c
      end.
Proof.
  induction w as [|w IH]; intros a b r1 r2 Ha Hb.
  - change (10 ^ Z.of_nat 0) with 1 in *.
    replace a with 0 by lia. replace b with 0 by lia. reflexivity.
  - rewrite Nat2Z.inj_succ, Z.pow_succ_r in Ha, Hb by lia.
    cbn [zfill]. rewrite IH by (Z.div_mod_to_equations; nia).
    rewrite compare_String, compare_digito.
    destruct (Z.compare_spec (a / 10) (b / 10));
      destruct (Z.compare_spec (a mod 10) (b mod 10));
      destruct (Z.compare_spec a b);
      try reflexivity; exfalso; Z.div_mod_to_equations; lia.
Qed.

Lemma compare_to_period_M (t1 t2 : Timestamp) :
  em_datetime64 t1 -> em_datetime64 t2 ->
  String.compare (to_period_M t1) (to_period_M t2)
  = match fst (ano_mes t1) ?= fst (ano_mes t2) with
    | Eq => snd (ano_mes t1) ?= snd (ano_mes t2)
    | c => c
    end.
Proof.
  intros H1 H2. unfold to_period_M, ano_mes.
  destruct (calendario_inverso (date_of t1)) as (y1 & m1 & d1 & Hc1 & _ & Hm1 & _ & _).
  destruct (calendario_inverso (date_of t2)) as (y2 & m2 & d2 & Hc2 & _ & Hm2 & _ & _).
  pose proof (ano_quatro_digitos t1 y1 m1 d1 H1 Hc1).
  pose proof (ano_quatro_digitos t2 y2 m2 d2 H2 Hc2).
  rewrite Hc1, Hc2. cbn [fst snd].
  rewrite (compare_zfill 4) by (change (10 ^ Z.of_nat 4) with 10000; lia).
  destruct (y1 ?= y2); try reflexivity.
  rewrite compare_String. change (Ascii.compare "-" "-") with Eq. cbv iota.
  rewrite (compare_zfill 2) by (change (10 ^ Z.of_nat 2) with 100; lia).
  now destruct (m1 ?= m2).
Qed.

Lemma ano_mes_monotono (t1 t2 : Timestamp) :
  t1 <= t2 ->
  fst (ano_mes t1) < fst (ano_mes t2)
  \/ (fst (ano_mes t1) = fst (ano_mes t2) /\ snd (ano_mes t1) <= snd (ano_mes t2)).
Proof.
  intros H.
  assert (Hd : date_of t1 <= date_of t2)
    by (unfold date_of, NS_POR_DIA; apply Z.div_le_mono; lia).
  pose proof (mes_corrido_monotono _ _ Hd) as Hm.
  unfold mes_corrido, ano_mes in *.
  destruct (calendario_inverso (date_of t1)) as (y1 & m1 & d1 & Hc1 & _ & Hm1 & _ & _).
  destruct (calendario_inverso (date_of t2)) as (y2 & m2 & d2 & Hc2 & _ & Hm2 & _ & _).
  rewrite Hc1, Hc2 in *. cbn [fst snd]. lia.
Qed.

(** X12.  The monthly buckets sort as time runs: of two timestamps the
    later one has the month label that is greater or equal in string
    order, so the sorted keys of the monthly chart are chronological. *)
Theorem meses_em_ordem (t1 t2 : Timestamp) :
  em_datetime64 t1 -> em_datetime64 t2 -> t1 <= t2 ->
  String.leb (to_period_M t1) (to_period_M t2) = true.
Proof.
  intros H1 H2 H. unfold String.leb.
  rewrite (compare_to_period_M t1 t2 H1 H2).
  destruct (ano_mes_monotono t1 t2 H) as [Hy|[Hy Hm]].
  - apply Z.compare_lt_iff in Hy. now rewrite Hy.
  - rewrite Hy, Z.compare_refl.
    destruct (Z.compare_spec (snd (ano_mes t1)) (snd (ano_mes t2))); try reflexivity. lia.
Qed.

Lemma meses_em_ordem_witness :
  em_datetime64 (carimbo 2024 1 5 0 0 0)
  /\ em_datetime64 (carimbo 2024 2 10 14 0 0)
  /\ String.leb (to_period_M (carimbo 2024 1 5 0 0 0))
                (to_period_M (carimbo 2024 2 10 14 0 0)) = true.
Proof.
  assert (H1 : em_datetime64 (carimbo 2024 1 5 0 0 0)) by (split; reflexivity).
  assert (H2 : em_datetime64 (carimbo 2024 2 10 14 0 0)) by (split; reflexivity).
  split; [exact H1|]. split; [exact H2|].
  apply (meses_em_ordem _ _ H1 H2). vm_compute. discriminate.
Defined.

(** X13.  Two tickets fall in the same monthly bucket exactly when they
    were opened in the same month of the same year. *)
Theorem mesmo_mes (t1 t2 : Timestamp) :
  em_datetime64 t1 -> em_datetime64 t2 ->
  (to_period_M t1 = to_period_M t2 <-> ano_mes t1 = ano_mes t2).
Proof.
  intros H1 H2. split.
  - intros E.
    pose proof (compare_to_period_M t1 t2 H1 H2) as C.
    rewrite E in C.
    pose proof (proj2 (String_as_OT.cmp_eq (to_period_M t2) (to_period_M t2)) eq_refl) as R.
    unfold String_as_OT.cmp in R. rewrite R in C.
    destruct (ano_mes t1) as [y1 m1], (ano_mes t2) as [y2 m2]. cbn [fst snd] in C.
    destruct (Z.compare_spec y1 y2); try discriminate.
    symmetry in C. apply Z.compare_eq in C. congruence.
  - unfold to_period_M, ano_mes.
    destruct (civil_from_days (date_of t1)) as [[y1 m1] d1].
    destruct (civil_from_days (date_of t2)) as [[y2 m2] d2].
    now intros [= -> ->].
Qed.

Lemma mesmo_mes_witness :
  em_datetime64 (carimbo 2024 1 5 0 0 0)
  /\ em_datetime64 (carimbo 2024 1 20 16 45 0)
  /\ (to_period_M (carimbo 2024 1 5 0 0 0) = to_period_M (carimbo 2024 1 20 16 45 0)
      <-> ano_mes (carimbo 2024 1 5 0 0 0) = ano_mes (carimbo 2024 1 20 16 45 0)).
Proof.
  assert (H1 : em_datetime64 (carimbo 2024 1 5 0 0 0)) by (split; reflexivity).
  assert (H2 : em_datetime64 (carimbo 2024 1 20 16 45 0)) by (split; reflexivity).
  split; [exact H1|]. split; [exact H2|].
  exact (mesmo_mes _ _ H1 H2).
Defined.

(** ** More on the filter *)

Lemma subsequencia_filter {A} (f : A -> bool) (l : list A) :
  subsequencia (filter f l) l.
Proof.
  induction l as [|a l IH]; cbn [filter]; [constructor|].
  destruct (f a); now constructor.
Qed.

Lemma subsequencia_In {A} (l l' : list A) :
  subsequencia l l' -> forall x, In x l -> In x l'.
Proof.
  induction 1 as [|x l l' _ IH|x l l' _ IH]; intros y Hy.
  - destruct Hy.
  - destruct Hy as [<-|Hy]; [now left | right; now apply IH].
  - right. now apply IH.
Qed.

Lemma subsequencia_map {A B} (g : A -> B) (l l' : list A) :
  subsequencia l l' -> subsequencia (map g l) (map g l').
Proof. induction 1; cbn [map]; now constructor. Qed.

Lemma subsequencia_NoDup {A} (l l' : list A) :
  subsequencia l l' -> NoDup l' -> NoDup l.
Proof.
  induction 1 as [|x l l' Hs IH|x l l' Hs IH]; intros Hn.
  - constructor.
  - inversion Hn as [|? ? Hx Hn']; subst. constructor; [|now apply IH].
    intros Hin. apply Hx. now apply (subsequencia_In _ _ Hs).
  - inversion Hn; subst. now apply IH.
Qed.

Lemma filtro_subsequencia (df : DataFrame) (sel : Selecao) (f : DataFrame) :
  df_filtrado df sel = Ok f ->
  subsequencia (registros f) (registros df) /\ columns f = columns df.
Proof.
  intros H. apply df_filtrado_inv in H. destruct H as (ini & fim & resto & _ & ->).
  rewrite registros_seleciona, columns_seleciona.
  split; [apply subsequencia_filter | reflexivity].
Qed.

(** X1.  The filter keeps the order of the table and its columns: the rows
    of the subset are rows of the table, in the table's order, none of them
    new or repeated. *)
Theorem filtro_preserva_ordem (df : DataFrame) (sel : Selecao) (f : DataFrame) :
  df_filtrado df sel = Ok f ->
  subsequencia (registros f) (registros df) /\ columns f = columns df.
Proof.
  intros H. apply df_filtrado_inv in H. destruct H as (ini & fim & resto & _ & ->).
  rewrite registros_seleciona, columns_seleciona.
  split; [apply subsequencia_filter | reflexivity].
Qed.

Lemma filtro_preserva_ordem_witness :
  df_filtrado tabela_pt selecao_pt = Ok subconjunto_pt
  /\ subsequencia (registros subconjunto_pt) (registros tabela_pt)
  /\ columns subconjunto_pt = columns tabela_pt.
Proof.
  split; [reflexivity|].
  exact (filtro_preserva_ordem tabela_pt selecao_pt subconjunto_pt eq_refl).
Defined.

(** X2.  If no identifier occurs twice in the table, none occurs twice in
    the filtered subset. *)
Theorem filtro_preserva_ids_unicos (df : DataFrame) (sel : Selecao) (f : DataFrame) :
  NoDup (map ID (registros df)) -> df_filtrado df sel = Ok f ->
  NoDup (map ID (registros f)).
Proof.
  intros Hn H. apply df_filtrado_inv in H. destruct H as (ini & fim & resto & _ & ->).
  rewrite registros_seleciona.
  apply (subsequencia_NoDup _ (map ID (registros df))); [|assumption].
  apply subsequencia_map, subsequencia_filter.
Qed.

Lemma filtro_preserva_ids_unicos_witness :
  NoDup (map ID (registros tabela_pt))
  /\ df_filtrado tabela_pt selecao_pt = Ok subconjunto_pt
  /\ NoDup (map ID (registros subconjunto_pt)).
Proof.
  assert (H : NoDup (map ID (registros tabela_pt)))
    by (cbn; repeat constructor; cbn; lia).
  split; [exact H|]. split; [reflexivity|].
  exact (filtro_preserva_ids_unicos tabela_pt selecao_pt subconjunto_pt H eq_refl).
Defined.

Lemma filter_nada {A} (f : A -> bool) (l : list A) :
  (forall x, In x l -> f x = false) -> filter f l = [].
Proof.
  induction l as [|a l IH]; intros H; cbn [filter]; [reflexivity|].
  rewrite (H a (or_introl eq_refl)). apply IH. intros x Hx. apply H. now right.
Qed.

(** X3.  A selection with no sector, with no status, or whose end day is
    before its start day keeps no row of any table; the page then shows the
    neutral KPIs and offers no download. *)
Theorem selecao_sem_resultado (df : DataFrame) (sel : Selecao) (f : DataFrame) :
  df_filtrado df sel = Ok f ->
  setores_sel sel = [] \/ status_sel sel = []
  \/ (exists ini fim resto, datas_selecionadas sel = ini :: fim :: resto /\ fim < ini) ->
  empty f = true
  /\ exists p, pagina df sel = Ok p /\ metricas p = kpis_neutros /\ download p = None.
Proof.
  intros Hf Hsel.
  assert (He : empty f = true).
  { pose proof Hf as Hf'. apply df_filtrado_inv in Hf'.
    destruct Hf' as (ini & fim & resto & Ed & ->).
    apply empty_true. rewrite registros_seleciona. apply filter_nada.
    intros r _. destruct (mascara _ _ ini fim r) eqn:Em; [|reflexivity].
    apply mascara_true in Em. destruct Em as (Hs & Hst & Hi & Hfim).
    destruct Hsel as [E|[E|(i & fi & rs & E & Hlt)]].
    - rewrite E in Hs. destruct Hs.
    - rewrite E in Hst. destruct Hst.
    - rewrite Ed in E. injection E as -> -> ->.
      unfold to_datetime, NS_POR_DIA in *. lia. }
  split; [exact He|].
  eexists. split; [exact (pagina_vazia df sel f Hf He)|]. split; reflexivity.
Qed.

Lemma selecao_sem_resultado_witness :
  df_filtrado tabela_pt selecao_sem_setor = Ok (Tabela [])
  /\ empty (Tabela []) = true
  /\ exists p, pagina tabela_pt selecao_sem_setor = Ok p
       /\ metricas p = kpis_neutros /\ download p = None.
Proof.
  split; [reflexivity|].
  exact (selecao_sem_resultado tabela_pt selecao_sem_setor (Tabela [])
           eq_refl (or_introl eq_refl)).
Defined.






(** ** The widgets *)

Lemma NoDup_sorted (l : list string) : NoDup l -> NoDup (sorted l).
Proof.
  intros H. apply (Permutation_NoDup (l := l)); [|assumption].
  symmetry. apply sorted_perm.
Qed.

(** X6.  The options offered (and selected by default) in the sector and
    status widgets are exactly the values present in the table, each once,
    in ascending order. *)
Theorem opcoes_dos_filtros (df : DataFrame) :
  (ordenada (setores df) /\ NoDup (setores df)
   /\ forall s, In s (setores df) <-> exists r, In r (registros df) /\ setor r = s)
  /\ (ordenada (status_disponiveis df) /\ NoDup (status_disponiveis df)
      /\ forall s, In s (status_disponiveis df)
                   <-> exists r, In r (registros df) /\ status r = s).
Proof.
  unfold setores, status_disponiveis. split; (split; [apply sorted_ordenada|]);
    (split; [apply NoDup_sorted, NoDup_unique|]);
    intros s; rewrite In_sorted, In_unique, in_map_iff;
    split; intros (r & H1 & H2); exists r; auto.
Qed.

(** X7.  With the three widgets untouched the page keeps a ticket of the
    table exactly when it was opened before the day of the latest ticket or
    is stamped at midnight. *)
Theorem selecao_padrao_exata (df : DataFrame) (hi : Timestamp) (sel : Selecao)
  (f : DataFrame) :
  data_max df = Some hi -> selecao_padrao df = Some sel ->
  df_filtrado df sel = Ok f ->
  forall r, In r (registros f) <->
    In r (registros df)
    /\ (date_of (data r) < date_of hi \/ data r mod NS_POR_DIA = 0).
Proof.
  intros Hmax Hsel Hf r.
  destruct (selecao_padrao_some df hi Hmax) as (lo & Hmin & Hsel').
  rewrite Hsel' in Hsel. injection Hsel as <-.
  rewrite (filtro_em_dias _ _ _ _ _ _ Hf r).
  split.
  - intros (Hr & _ & _ & _ & [H|[_ H]]); auto.
  - intros (Hr & H). split; [assumption|].
    split; [unfold setores; apply In_sorted, In_unique; now apply in_map|].
    split; [unfold status_disponiveis; apply In_sorted, In_unique; now apply in_map|].
    assert (Hlo : lo <= data r) by (apply (col_min_le _ _ Hmin); now apply in_map).
    assert (Hhi : data r <= hi) by (apply (col_max_ge _ _ Hmax); now apply in_map).
    split; [unfold date_of, NS_POR_DIA; apply Z.div_le_mono; lia|].
    destruct H as [H|H]; [now left|].
    assert (Hd : date_of (data r) <= date_of hi)
      by (unfold date_of, NS_POR_DIA; apply Z.div_le_mono; lia).
    destruct (Z.eq_dec (date_of (data r)) (date_of hi)); [right; auto | left; lia].
Qed.

Lemma selecao_padrao_exata_witness :
  data_max tabela_com_horas = Some (carimbo 2024 2 10 14 0 0)
  /\ exists sel f,
       selecao_padrao tabela_com_horas = Some sel
       /\ df_filtrado tabela_com_horas sel = Ok f
       /\ forall r, In r (registros f) <->
            In r (registros tabela_com_horas)
            /\ (date_of (data r) < date_of (carimbo 2024 2 10 14 0 0)
                \/ data r mod NS_POR_DIA = 0).
Proof.
  split; [reflexivity|].
  do 2 eexists. split; [reflexivity|]. split; [reflexivity|].
  exact (selecao_padrao_exata tabela_com_horas _ _ _ eq_refl eq_refl eq_refl).
Defined.

(** ** The mean resolution time *)




(** ** The chart tables and the page *)

Lemma pagina_casos (df : DataFrame) (sel : Selecao) (p : Pagina) :
  pagina df sel = Ok p ->
  exists f, df_filtrado df sel = Ok f
    /\ ((empty f = true /\ p = mkPagina kpis_neutros None None None None None f)
        \/ (empty f = false /\ exists m, kpis f = Ok m
            /\ p = mkPagina m
                 (Some (groupby_count (map setor (registros f))))
                 (Some (value_counts (map status (registros f))))
                 (Some (map (fun r => (setor r, tempo_resolucao r)) (registros f)))
                 (Some (groupby_count (map (fun r => to_period_M (data r)) (registros f))))
                 (Some (to_csv (atribui_mes f)))
                 (atribui_mes f))).
Proof.
  intros Hp.
  destruct (df_filtrado df sel) as [f|e] eqn:Hf;
    [|unfold pagina in Hp; rewrite Hf in Hp; discriminate].
  exists f. split; [reflexivity|].
  destruct (empty f) eqn:He.
  - left. split; [reflexivity|].
    rewrite (pagina_vazia df sel f Hf He) in Hp. now injection Hp.
  - right. split; [reflexivity|].
    destruct (pagina_nao_vazia df sel f Hf He) as (m & Hk & Hp').
    rewrite Hp' in Hp. exists m. split; [assumption | now injection Hp].
Qed.

Lemma groupby_count_chaves (keys : list string) :
  map fst (groupby_count keys) = sorted (unique keys).
Proof. unfold groupby_count. rewrite map_map. cbn [fst]. apply map_id. Qed.

Lemma groupby_count_spec (keys : list string) :
  ordenada (map fst (groupby_count keys))
  /\ NoDup (map fst (groupby_count keys))
  /\ forall k n, In (k, n) (groupby_count keys)
                 <-> In k keys /\ n = conta k keys /\ (1 <= n)%nat.
Proof.
  rewrite groupby_count_chaves.
  split; [apply sorted_ordenada|]. split; [apply NoDup_sorted, NoDup_unique|].
  intros k n. unfold groupby_count. rewrite in_map_iff. split.
  - intros (k' & [= <- <-] & Hk). rewrite In_sorted, In_unique in Hk.
    repeat split; auto. now apply In_conta_pos.
  - intros (Hk & -> & _). exists k. split; [reflexivity|].
    now rewrite In_sorted, In_unique.
Qed.

(** X9.  The table behind the by-sector chart has one row for each sector
    present in the subset and no other, in ascending order of sector, and
    the count of a row is the number of tickets of that sector. *)
Theorem tabela_por_setor (df : DataFrame) (sel : Selecao) (p : Pagina)
  (t : list (string * nat)) :
  pagina df sel = Ok p -> chamados_por_setor p = Some t ->
  ordenada (map fst t) /\ NoDup (map fst t)
  /\ forall s n, In (s, n) t
       <-> In s (map setor (registros (detalhados p)))
           /\ n = conta s (map setor (registros (detalhados p)))
           /\ (1 <= n)%nat.
Proof.
  intros Hp Ht. destruct (pagina_casos df sel p Hp) as (f & _ & [[_ ->]|(_ & m & _ & ->)]);
    cbn [chamados_por_setor detalhados] in *; [discriminate|].
  injection Ht as <-. rewrite registros_atribui_mes. apply groupby_count_spec.
Qed.

Lemma tabela_por_setor_witness :
  pagina tabela_pt selecao_pt = Ok pagina_pt
  /\ chamados_por_setor pagina_pt = Some [("TI", 2%nat)]
  /\ ordenada (map fst [("TI", 2%nat)]) /\ NoDup (map fst [("TI", 2%nat)])
  /\ forall s n, In (s, n) [("TI", 2%nat)]
       <-> In s (map setor (registros (detalhados pagina_pt)))
           /\ n = conta s (map setor (registros (detalhados pagina_pt)))
           /\ (1 <= n)%nat.
Proof.
  assert (H : pagina tabela_pt selecao_pt = Ok pagina_pt) by (vm_compute; reflexivity).
  split; [exact H|]. split; [reflexivity|].
  exact (tabela_por_setor tabela_pt selecao_pt pagina_pt _ H eq_refl).
Defined.

Lemma insere_desc_ordenada (x : string * nat) (l : list (string * nat)) :
  StronglySorted (fun a b => (snd b <= snd a)%nat) l ->
  StronglySorted (fun a b => (snd b <= snd a)%nat) (insere_desc x l).
Proof.
  induction 1 as [|y l Hs IH Hall]; cbn [insere_desc].
  - repeat constructor.
  - destruct (Nat.leb_spec (snd y) (snd x)).
    + constructor; [now constructor|]. constructor; [assumption|].
      eapply Forall_impl; [|exact Hall]. cbn. intros; lia.
    + constructor; [assumption|].
      rewrite Forall_forall in *. intros z Hz.
      apply (Permutation_in _ (insere_desc_perm x l)) in Hz.
      destruct Hz as [<-|Hz]; [lia | auto].
Qed.

Lemma value_counts_spec (col : list string) :
  StronglySorted (fun a b => (snd b <= snd a)%nat) (value_counts col)
  /\ NoDup (map fst (value_counts col))
  /\ forall k n, In (k, n) (value_counts col)
                 <-> In k col /\ n = conta k col /\ (1 <= n)%nat.
Proof.
  unfold value_counts.
  set (pares := map (fun k => (k, conta k col)) (unique col)).
  assert (Hperm : Permutation (fold_right insere_desc [] pares) pares)
    by apply ordena_desc_perm.
  split; [|split].
  - induction pares as [|x l IH]; cbn [fold_right]; [constructor|].
    apply insere_desc_ordenada, IH, ordena_desc_perm.
  - apply (Permutation_NoDup (l := map fst pares)).
    + symmetry. now apply Permutation_map.
    + subst pares. rewrite map_map. cbn [fst]. rewrite map_id. apply NoDup_unique.
  - intros k n. split.
    + intros H. apply (Permutation_in _ Hperm) in H. subst pares.
      apply in_map_iff in H. destruct H as (k' & [= <- <-] & Hk).
      rewrite In_unique in Hk. repeat split; auto. now apply In_conta_pos.
    + intros (Hk & -> & _). apply (Permutation_in _ (Permutation_sym Hperm)).
      subst pares. apply in_map_iff. exists k. split; [reflexivity|].
      now rewrite In_unique.
Qed.

(** X10.  The table behind the status chart has one row for each status
    present in the subset and no other, the most frequent first, and the
    count of a row is the number of tickets of that status. *)
Theorem tabela_por_status (df : DataFrame) (sel : Selecao) (p : Pagina)
  (t : list (string * nat)) :
  pagina df sel = Ok p -> status_count p = Some t ->
  StronglySorted (fun a b => (snd b <= snd a)%nat) t
  /\ NoDup (map fst t)
  /\ forall s n, In (s, n) t
       <-> In s (map status (registros (detalhados p)))
           /\ n = conta s (map status (registros (detalhados p)))
           /\ (1 <= n)%nat.
Proof.
  intros Hp Ht. destruct (pagina_casos df sel p Hp) as (f & _ & [[_ ->]|(_ & m & _ & ->)]);
    cbn [status_count detalhados] in *; [discriminate|].
  injection Ht as <-. rewrite registros_atribui_mes. apply value_counts_spec.
Qed.

Lemma tabela_por_status_witness :
  pagina tabela_pt selecao_pt = Ok pagina_pt
  /\ status_count pagina_pt = Some [("Resolvido", 1%nat); ("Aberto", 1%nat)]
  /\ StronglySorted (fun a b => (snd b <= snd a)%nat)
       [("Resolvido", 1%nat); ("Aberto", 1%nat)]
  /\ NoDup (map fst [("Resolvido", 1%nat); ("Aberto", 1%nat)])
  /\ forall s n, In (s, n) [("Resolvido", 1%nat); ("Aberto", 1%nat)]
       <-> In s (map status (registros (detalhados pagina_pt)))
           /\ n = conta s (map status (registros (detalhados pagina_pt)))
           /\ (1 <= n)%nat.
Proof.
  assert (H : pagina tabela_pt selecao_pt = Ok pagina_pt) by (vm_compute; reflexivity).
  split; [exact H|]. split; [reflexivity|].
  exact (tabela_por_status tabela_pt selecao_pt pagina_pt _ H eq_refl).
Defined.

(** X11.  The table behind the monthly chart counts the tickets of the
    subset by the month label that line 155 stored in the column ["mes"]:
    one row for each month present and no other, labels ascending, each
    count the number of tickets of that month, the counts adding up to the
    total shown. *)
Theorem tabela_por_mes (df : DataFrame) (sel : Selecao) (p : Pagina)
  (t : list (string * nat)) :
  pagina df sel = Ok p -> chamados_por_mes p = Some t ->
  list_sum (map snd t) = total_chamados (metricas p)
  /\ coluna_mes (detalhados p)
     = Ok (map (fun r => to_period_M (data r)) (registros (detalhados p)))
  /\ ordenada (map fst t) /\ NoDup (map fst t)
  /\ forall m n, In (m, n) t
       <-> In m (map (fun r => to_period_M (data r)) (registros (detalhados p)))
           /\ n = conta m (map (fun r => to_period_M (data r)) (registros (detalhados p)))
           /\ (1 <= n)%nat.
Proof.
  intros Hp Ht. pose proof (pagina_total df sel p Hp) as Htot.
  destruct (pagina_casos df sel p Hp) as (f & _ & [[_ ->]|(_ & m & _ & ->)]);
    cbn [chamados_por_mes detalhados metricas] in *; [discriminate|].
  injection Ht as <-. rewrite Htot. unfold shape0.
  rewrite coluna_atribui_mes, registros_atribui_mes.
  split; [rewrite groupby_count_soma; apply length_map|].
  split; [reflexivity|]. apply groupby_count_spec.
Qed.

Lemma tabela_por_mes_witness :
  pagina tabela_pt selecao_pt = Ok pagina_pt
  /\ chamados_por_mes pagina_pt = Some [("2024-01", 1%nat); ("2024-02", 1%nat)]
  /\ list_sum (map snd [("2024-01", 1%nat); ("2024-02", 1%nat)])
     = total_chamados (metricas pagina_pt)
  /\ coluna_mes (detalhados pagina_pt)
     = Ok (map (fun r => to_period_M (data r)) (registros (detalhados pagina_pt)))
  /\ ordenada (map fst [("2024-01", 1%nat); ("2024-02", 1%nat)])
  /\ NoDup (map fst [("2024-01", 1%nat); ("2024-02", 1%nat)])
  /\ forall m n, In (m, n) [("2024-01", 1%nat); ("2024-02", 1%nat)]
       <-> In m (map (fun r => to_period_M (data r)) (registros (detalhados pagina_pt)))
           /\ n = conta m (map (fun r => to_period_M (data r))
                               (registros (detalhados pagina_pt)))
           /\ (1 <= n)%nat.
Proof.
  assert (H : pagina tabela_pt selecao_pt = Ok pagina_pt) by (vm_compute; reflexivity).
  split; [exact H|]. split; [reflexivity|].
  exact (tabela_por_mes tabela_pt selecao_pt pagina_pt _ H eq_refl).
Defined.

(** X14.  A page is drawn in one of two ways.  On an empty subset: total
    0, the neutral KPIs, no chart table and no download, and the detail
    table has the columns of the loaded table.  Otherwise: the four chart
    tables are there, the download is the export of the very frame shown
    in the detail table, and that frame has the column ["mes"].  Either way
    the total shown is the number of rows of the detail table, which are
    rows of the loaded table in their order. *)
Theorem pagina_vazia_ou_completa (df : DataFrame) (sel : Selecao) (p : Pagina) :
  pagina df sel = Ok p ->
  total_chamados (metricas p) = shape0 (detalhados p)
  /\ subsequencia (registros (detalhados p)) (registros df)
  /\ ((total_chamados (metricas p) = 0%nat
       /\ metricas p = kpis_neutros
       /\ chamados_por_setor p = None /\ status_count p = None
       /\ graf3 p = None /\ chamados_por_mes p = None
       /\ download p = None
       /\ columns (detalhados p) = columns df)
      \/ ((0 < total_chamados (metricas p))%nat
          /\ chamados_por_setor p <> None /\ status_count p <> None
          /\ graf3 p <> None /\ chamados_por_mes p <> None
          /\ download p = Some (to_csv (detalhados p))
          /\ columns (detalhados p) = esquema ++ ["mes"])).
Proof.
  intros Hp. pose proof (pagina_total df sel p Hp) as Htot.
  split; [exact Htot|].
  destruct (pagina_casos df sel p Hp) as (f & Hf & [[He ->]|(He & m & Hk & ->)]);
    cbn [detalhados metricas chamados_por_setor status_count graf3 chamados_por_mes
         download total_chamados kpis_neutros] in *.
  - split; [exact (proj1 (filtro_subsequencia df sel f Hf))|].
    left. repeat split; auto. exact (proj2 (filtro_subsequencia df sel f Hf)).
  - rewrite registros_atribui_mes.
    split; [exact (proj1 (filtro_subsequencia df sel f Hf))|].
    right. rewrite Htot. unfold shape0. rewrite registros_atribui_mes.
    fold (shape0 f). split; [now apply shape0_positivo|].
    repeat split; discriminate.
Qed.

Lemma pagina_vazia_ou_completa_witness :
  pagina tabela_pt selecao_pt = Ok pagina_pt
  /\ total_chamados (metricas pagina_pt) = shape0 (detalhados pagina_pt)
  /\ subsequencia (registros (detalhados pagina_pt)) (registros tabela_pt)
  /\ ((total_chamados (metricas pagina_pt) = 0%nat
       /\ metricas pagina_pt = kpis_neutros
       /\ chamados_por_setor pagina_pt = None /\ status_count pagina_pt = None
       /\ graf3 pagina_pt = None /\ chamados_por_mes pagina_pt = None
       /\ download pagina_pt = None
       /\ columns (detalhados pagina_pt) = columns tabela_pt)
      \/ ((0 < total_chamados (metricas pagina_pt))%nat
          /\ chamados_por_setor pagina_pt <> None /\ status_count pagina_pt <> None
          /\ graf3 pagina_pt <> None /\ chamados_por_mes pagina_pt <> None
          /\ download pagina_pt = Some (to_csv (detalhados pagina_pt))
          /\ columns (detalhados pagina_pt) = esquema ++ ["mes"])).
Proof.
  assert (H : pagina tabela_pt selecao_pt = Ok pagina_pt) by (vm_compute; reflexivity).
  split; [exact H|].
  exact (pagina_vazia_ou_completa tabela_pt selecao_pt pagina_pt H).
Defined.

(** ** Export, reload and the page again *)






(** ** The generated table and the start of the script *)

Lemma In_gerar (sorteio : nat -> Sorteio) (r : Chamado) :
  In r (registros (gerar sorteio)) <->
  exists i, (i < 100)%nat /\ r = linha_ficticia sorteio i.
Proof.
  unfold gerar. cbn [registros]. rewrite in_map_iff. split.
  - intros (i & <- & Hi). apply in_seq in Hi. exists i. split; [lia | reflexivity].
  - intros (i & Hi & ->). exists i. split; [reflexivity | apply in_seq; lia].
Qed.


Lemma sorteio_exemplo_valido (i : nat) : (i < 100)%nat -> sorteio_valido (sorteio_exemplo i).
Proof.
  intros Hi. unfold sorteio_valido, sorteio_exemplo.
  cbn [s_setor s_status s_dias s_tempo s_hoje].
  pose proof (Z.mod_pos_bound (Z.of_nat i) 71 ltac:(lia)).
  split; [cbn; tauto|]. split; [cbn; tauto|].
  split; [lia|]. split; [lia|]. split; split; reflexivity.
Qed.


Lemma gerar_exportavel (sorteio : nat -> Sorteio) :
  (forall i, (i < 100)%nat -> sorteio_valido (sorteio i)) ->
  exportavel (gerar sorteio).
Proof.
  intros Hv. unfold gerar. cbn [exportavel]. apply Forall_forall.
  intros r Hr. apply (In_gerar sorteio r) in Hr. destruct Hr as (i & Hi & ->).
  destruct (Hv i Hi) as (H1 & H2 & H3 & _ & H5 & H6).
  unfold chamado_exportavel. cbn [linha_ficticia setor status data].
  split; [|split].
  - unfold setores_ficticios in H1. cbn [In] in H1.
    repeat (destruct H1 as [<-|H1]; [reflexivity|]). destruct H1.
  - unfold status_ficticios in H2. cbn [In] in H2.
    repeat (destruct H2 as [<-|H2]; [reflexivity|]). destruct H2.
  - unfold em_datetime64, NS_POR_DIA in *. lia.
Qed.

(** X19.  Started without a data file, the script writes the generated
    table and loads exactly that table; started again with the file in
    place, it leaves the file alone and loads the same table, whatever the
    new draws would have been. *)
Theorem primeira_execucao_e_reinicio (sorteio outro : nat -> Sorteio) :
  (forall i, (i < 100)%nat -> sorteio_valido (sorteio i)) ->
  inicio None sorteio = (to_csv (gerar sorteio), Ok (gerar sorteio))
  /\ inicio (Some (to_csv (gerar sorteio))) outro
     = (to_csv (gerar sorteio), Ok (gerar sorteio)).
Proof.
  intros Hv. unfold inicio.
  rewrite (carregar_to_csv _ (gerar_exportavel sorteio Hv)). split; reflexivity.
Qed.

Lemma primeira_execucao_e_reinicio_witness :
  inicio None sorteio_exemplo
  = (to_csv (gerar sorteio_exemplo), Ok (gerar sorteio_exemplo))
  /\ inicio (Some (to_csv (gerar sorteio_exemplo))) (fun _ => mkSorteio "RH" 0 0 "Aberto" 1)
     = (to_csv (gerar sorteio_exemplo), Ok (gerar sorteio_exemplo)).
Proof.
  exact (primeira_execucao_e_reinicio sorteio_exemplo _ sorteio_exemplo_valido).
Defined.
